(** * VocaBoost backend: authentication and account lockout

    A shallow embedding of
      - src/middleware/protection/loginAttempts.js  (the lockout guard),
      - src/controllers/authController.js           (login, forgotPassword),
      - src/config/auth.js                          (the passport strategies),
      - src/models/Profile.js                       (the profile table access),
    together with the properties of the specification that concern them.

    Asynchronous functions are written in a small state-and-exception
    monad over the [World] the handlers act on: the cache service, the
    Supabase credential directory, the profiles table and the mail
    outbox.  Every handler receives the reading [now] of [Date.now()];
    one handler invocation is taken to run within a single millisecond. *)

From Stdlib Require Import ZArith String List Bool Lia.
From stdpp Require Import base option gmap strings pretty.

Local Open Scope string_scope.
Local Open Scope Z_scope.

(** ** Data *)

(** The object [lockAccount] stores under [account_locked:<email>]. *)
Record LockData := mkLockData {
  ld_email : string;
  ld_attempts : Z;
  ld_ipAddress : string;
  ld_lockedAt : Z;
  ld_lockedUntil : Z;
  ld_reason : string
}.

(** What the guard keeps in the cache: a counter or a lock record. *)
Inductive CacheValue :=
| VNum (n : Z)
| VLock (l : LockData).

(** A cache entry carries the instant (in ms) at which its TTL runs out. *)
Record Entry := mkEntry {
  e_value : CacheValue;
  e_expires : Z
}.

(** A profile as the queries on the [profiles] table return it. *)
Record Profile := mkProfile {
  p_id : string;
  p_display_name : string;
  p_role : string;
  p_account_status : string;
  p_last_seen_at : option Z
}.

(** A row of the [profiles] table, stored under its primary key [id]. *)
Record ProfileRow := mkProfileRow {
  r_display_name : string;
  r_role : string;
  r_account_status : string;
  r_last_seen_at : option Z
}.

Definition profileOf (id : string) (r : ProfileRow) : Profile :=
  mkProfile id (r_display_name r) (r_role r) (r_account_status r) (r_last_seen_at r).

Definition rowOf (p : Profile) : ProfileRow :=
  mkProfileRow (p_display_name p) (p_role p) (p_account_status p) (p_last_seen_at p).

(** An identity as the credential directory ([auth.users]) returns it. *)
Record AuthUser := mkAuthUser {
  u_id : string;
  u_email : string
}.

(** An identity of the directory, stored under its e-mail address. *)
Record UserRow := mkUserRow {
  ur_id : string;
  ur_password : option string;
  ur_email_confirmed : bool
}.

(** The mail [lockAccount] asks the email service to send. *)
Record Notification := mkNotification {
  n_to : string;
  n_fullName : string;
  n_lockReason : string;
  n_unlockTime : Z
}.

Record World := mkWorld {
  w_cache : gmap string Entry;
  w_faults : list bool;
  w_users : gmap string UserRow;
  w_profiles : gmap string ProfileRow;
  w_mail_up : bool;
  w_outbox : list Notification
}.

Definition set_cache (c : gmap string Entry) (w : World) : World :=
  mkWorld c (w_faults w) (w_users w) (w_profiles w) (w_mail_up w) (w_outbox w).

Definition set_faults (f : list bool) (w : World) : World :=
  mkWorld (w_cache w) f (w_users w) (w_profiles w) (w_mail_up w) (w_outbox w).

Definition set_users (u : gmap string UserRow) (w : World) : World :=
  mkWorld (w_cache w) (w_faults w) u (w_profiles w) (w_mail_up w) (w_outbox w).

Definition set_profiles (p : gmap string ProfileRow) (w : World) : World :=
  mkWorld (w_cache w) (w_faults w) (w_users w) p (w_mail_up w) (w_outbox w).

Definition push_outbox (n : Notification) (w : World) : World :=
  mkWorld (w_cache w) (w_faults w) (w_users w) (w_profiles w) (w_mail_up w)
          (w_outbox w ++ [n]).

(** JavaScript truthiness of a string that may be absent. *)
Definition truthy (s : option string) : bool :=
  match s with
  | Some s => negb (String.eqb s "")
  | None => false
  end.

(** ** Promises as a state-and-exception monad *)

Inductive Err :=
| CacheError
| MailError
| DbError (msg : string)
| TypeError (msg : string).

Inductive Res (A : Type) :=
| Ok (a : A)
| Throw (e : Err).
Arguments Ok {A} a.
Arguments Throw {A} e.

Definition M (A : Type) : Type := World -> Res A * World.

Definition ret {A} (a : A) : M A := fun w => (Ok a, w).

Definition throw {A} (e : Err) : M A := fun w => (Throw e, w).

Definition bind {A B} (m : M A) (k : A -> M B) : M B :=
  fun w => match m w with
           | (Ok a, w') => k a w'
           | (Throw e, w') => (Throw e, w')
           end.

(** [try { m } catch (error) { h error }] *)
Definition try_catch {A} (m : M A) (h : Err -> M A) : M A :=
  fun w => match m w with
           | (Ok a, w') => (Ok a, w')
           | (Throw e, w') => h e w'
           end.

Declare Scope js_scope.
Delimit Scope js_scope with js.
Notation "x <- c1 ;; c2" := (bind c1 (fun x => c2))
  (at level 100, c1 at next level, right associativity) : js_scope.
Notation "c1 ;;; c2" := (bind c1 (fun _ => c2))
  (at level 100, right associativity) : js_scope.
Local Open Scope js_scope.

(** ** The cache service *)

Module CacheService.

(** Modelled from the spec: services/cacheService.js is not among the
    sources.  The specification gives its interface,
    [increment(key, ttlSeconds) -> int], [get(key) -> value|absent],
    [set(key, value, ttlSeconds)], [delete(key)], with TTL semantics: an
    entry is gone once its time to live has run out.  [live] tells
    whether an entry is still there at instant [now]. *)
Definition live (now : Z) (e : Entry) : bool := now <? e_expires e.

(** Modelled from the spec: what a successful [get(key)] answers, the
    value of a live entry or nothing. *)
Definition peek (now : Z) (key : string) (c : gmap string Entry)
  : option CacheValue :=
  match c !! key with
  | Some e => if live now e then Some (e_value e) else None
  | None => None
  end.

(** Modelled from the spec: a call to the cache may fail (cache
    unavailable).  [w_faults] lists, call by call, whether the next call
    throws; past the end of the list every call succeeds.  Every call
    first consumes its entry of the schedule. *)
Definition call {A} (body : M A) : M A :=
  fun w => match w_faults w with
           | true :: fs => (Throw CacheError, set_faults fs w)
           | false :: fs => body (set_faults fs w)
           | [] => body w
           end.

(** Modelled from the spec: [get(key) -> value|absent]. *)
Definition get (now : Z) (key : string) : M (option CacheValue) :=
  call (fun w => (Ok (peek now key (w_cache w)), w)).

(** Modelled from the spec: [increment(key, ttlSeconds) -> int], atomic;
    the TTL is applied only when the call creates the key, and a value
    that is not a number cannot be incremented. *)
Definition incr (now : Z) (key : string) (ttl : Z) : M Z :=
  call (fun w =>
    match w_cache w !! key with
    | Some e =>
        if live now e then
          match e_value e with
          | VNum n =>
              (Ok (n + 1),
               set_cache (<[key := mkEntry (VNum (n + 1)) (e_expires e)]> (w_cache w)) w)
          | VLock _ => (Throw CacheError, w)
          end
        else
          (Ok 1, set_cache (<[key := mkEntry (VNum 1) (now + ttl * 1000)]> (w_cache w)) w)
    | None =>
        (Ok 1, set_cache (<[key := mkEntry (VNum 1) (now + ttl * 1000)]> (w_cache w)) w)
    end).

(** Modelled from the spec: [set(key, value, ttlSeconds)]. *)
Definition set (now : Z) (key : string) (v : CacheValue) (ttl : Z) : M unit :=
  call (fun w =>
    (Ok tt, set_cache (<[key := mkEntry v (now + ttl * 1000)]> (w_cache w)) w)).

(** Modelled from the spec: [delete(key)]. *)
Definition del (key : string) : M unit :=
  call (fun w => (Ok tt, set_cache (delete key (w_cache w)) w)).

End CacheService.

(** ** Supabase: the credential directory and the [profiles] table *)

Module Supabase.

(** The hosted service is an external collaborator.  The directory is
    a map from e-mail address to identity, the table a map from primary
    key to row; both answer without infrastructure failure, and rows are
    written by the calls below only (no database trigger is modelled). *)

(** [auth.signInWithPassword]: the identity, or a sign-in error. *)
Definition signInWithPassword (email password : option string)
  : M (option AuthUser * option string) :=
  fun w =>
    match email, password with
    | Some e, Some pw =>
        match w_users w !! e with
        | Some u =>
            if decide (ur_password u = Some pw)
            then (Ok (Some (mkAuthUser (ur_id u) e), None), w)
            else (Ok (None, Some "Invalid login credentials"), w)
        | None => (Ok (None, Some "Invalid login credentials"), w)
        end
    | _, _ => (Ok (None, Some "Invalid login credentials"), w)
    end.

Definition notAFunction : string :=
  "supabase.auth.admin.getUserByEmail is not a function".

(** [auth.admin.getUserByEmail]: the client the repository pins
    ([@supabase/supabase-js ^2.50.1] in package.json) has no such method
    on [auth.admin], and the mock client of config/database.js has no
    [auth] at all, so the call itself throws a TypeError. *)
Definition getUserByEmail (email : string) : M (option AuthUser * option Z) :=
  throw (TypeError notAFunction).

(** [auth.admin.createUser] with [email_confirm: true]; [newId] is the
    id the directory gives the identity it creates. *)
Definition createUser (newId email : string) : M (option AuthUser * option string) :=
  fun w =>
    match w_users w !! email with
    | Some _ => (Ok (None, Some "User already registered"), w)
    | None =>
        (Ok (Some (mkAuthUser newId email), None),
         set_users (<[email := mkUserRow newId None true]> (w_users w)) w)
    end.

(** [from('profiles').select('*').eq('id', id).single()]: no row is
    reported as error code PGRST116. *)
Definition selectProfile (id : string) : M (option Profile * option string) :=
  fun w =>
    match w_profiles w !! id with
    | Some r => (Ok (Some (profileOf id r), None), w)
    | None => (Ok (None, Some "PGRST116"), w)
    end.

(** [from('profiles').insert(row).select().single()]: [id] is the
    primary key of the table. *)
Definition insertProfile (p : Profile) : M (option Profile * option string) :=
  fun w =>
    match w_profiles w !! p_id p with
    | Some _ => (Ok (None, Some "23505"), w)
    | None =>
        (Ok (Some p, None), set_profiles (<[p_id p := rowOf p]> (w_profiles w)) w)
    end.

(** [from('profiles').update({last_seen_at}).eq('id', id).select().single()] *)
Definition updateLastSeen (id : string) (seen : Z) : M (option Profile * option string) :=
  fun w =>
    match w_profiles w !! id with
    | Some r =>
        let r' := mkProfileRow (r_display_name r) (r_role r) (r_account_status r)
                               (Some seen) in
        (Ok (Some (profileOf id r'), None),
         set_profiles (<[id := r']> (w_profiles w)) w)
    | None => (Ok (None, Some "PGRST116"), w)
    end.

End Supabase.

(** ** src/models/Profile.js *)

Module ProfileModel.

(** The argument of [Profile.create]. *)
Record ProfileData := mkProfileData {
  pd_id : string;
  pd_display_name : string;
  pd_role : string;
  pd_account_status : option string
}.

Definition findById (id : string) : M (option Profile) :=
  r <- Supabase.selectProfile id ;;
  match r with
  | (data, Some code) =>
      if negb (String.eqb code "PGRST116") then throw (DbError code) else ret data
  | (data, None) => ret data
  end.

Definition findByEmail (email : string) : M (option Profile) :=
  r <- Supabase.getUserByEmail email ;;
  match r with
  | (_, Some _) => ret None
  | (None, None) => ret None
  | (Some user, None) => findById (u_id user)
  end.

Definition create (profileData : ProfileData) : M Profile :=
  let status :=
    if String.eqb (pd_role profileData) "teacher" && negb (truthy (pd_account_status profileData))
    then "pending_verification"
    else if negb (truthy (pd_account_status profileData))
    then "pending_verification"
    else default "" (pd_account_status profileData) in
  r <- Supabase.insertProfile
         (mkProfile (pd_id profileData) (pd_display_name profileData)
                    (pd_role profileData) status None) ;;
  match r with
  | (_, Some code) => throw (DbError code)
  | (Some data, None) => ret data
  | (None, None) => throw (DbError "no data")
  end.

(** [Profile.update(id, { last_seen_at: new Date() })] *)
Definition update (id : string) (last_seen_at : Z) : M Profile :=
  r <- Supabase.updateLastSeen id last_seen_at ;;
  match r with
  | (_, Some code) => throw (DbError code)
  | (Some data, None) => ret data
  | (None, None) => throw (DbError "no data")
  end.

End ProfileModel.

(** ** The email service *)

Module EmailService.

(** Modelled from the spec: services/emailService.js is not among the
    sources.  The notification is best effort: when the mail transport is
    down the call throws, otherwise the mail is handed over. *)
Definition sendAccountLockedNotification (n : Notification) : M unit :=
  fun w => if w_mail_up w then (Ok tt, push_outbox n w) else (Throw MailError, w).

End EmailService.

(** ** HTTP requests and responses *)

(** [req.loginTracking]: the two closures the gate attaches; both are
    closed over the e-mail address and the client address. *)
Record Tracking := mkTracking {
  tr_email : string;
  tr_ipAddress : string
}.

Record Request := mkRequest {
  req_email : option string;
  req_password : option string;
  req_ip : string;
  req_loginTracking : option Tracking
}.

(** Modelled from the spec: utils/jwtHelper.js is not among the sources.
    The token issuer signs the claims it is given; a token is represented
    by the claims it carries. *)
Record Token := mkToken {
  tk_userId : string;
  tk_email : string;
  tk_role : string
}.

(** Modelled from the spec: [generateToken({ userId, email, role })]
    of utils/jwtHelper.js, the token issuer's [issue(claims)]. *)
Definition generateToken (userId email role : string) : Token :=
  mkToken userId email role.

Inductive Body :=
| LockedBody (error : string) (reason : option string) (remainingMinutes : Z)
             (message : string)
| RateLimitBody (error : string) (message : string)
| FailBody (error : string)
| LoginBody (message : string) (user : Profile) (token : Token)
| SuccessBody (message : string).

Record Response := mkResponse {
  status : Z;
  body : Body
}.

(** How a middleware or handler ends: [next()] with the request as it
    leaves the handler, [next(error)], or a response. *)
Inductive Handled :=
| Next (req : Request)
| NextError (e : Err)
| Respond (r : Response).

(** ** src/middleware/protection/loginAttempts.js *)

Module LoginAttempts.

Definition maxAttempts : Z := 5.
Definition lockoutDuration : Z := 15 * 60.
Definition attemptWindow : Z := 15 * 60.

Definition attemptsKey (email : string) : string := "login_attempts:" +:+ email.
Definition ipKey (ipAddress : string) : string := "login_attempts_ip:" +:+ ipAddress.
Definition lockKey (email : string) : string := "account_locked:" +:+ email.

Record AttemptStatus := mkAttemptStatus {
  attempts : Z;
  ipAttempts : Z;
  remainingAttempts : Z;
  as_isLocked : bool
}.

Record LockStatus := mkLockStatus {
  isLocked : bool;
  reason : option string;
  lockedUntil : option Z;
  remainingMinutes : option Z
}.

Definition notLocked : LockStatus := mkLockStatus false None None None.

(** [Math.ceil(d / 1000 / 60)] for an integer number [d] of
    milliseconds.  Both timestamps are integers; the two floating-point
    divisions followed by [Math.ceil] give the integer ceiling of
    [d / 60000] as long as [d] stays below some 10^15 ms in absolute
    value, far beyond any difference of two clock readings. *)
Definition ceilMinutes (d : Z) : Z := - ((- d) / 60000).

(** [profile.display_name || 'User'] *)
Definition orUser (s : string) : string :=
  if String.eqb s "" then "User" else s.

Definition lockAccount (now : Z) (email : string) (attempts : Z) (ipAddress : string)
  : M unit :=
  try_catch
    (let lockedUntil := now + lockoutDuration * 1000 in
     let lockData :=
       mkLockData email attempts ipAddress now lockedUntil
                  (pretty attempts +:+ " failed login attempts") in
     CacheService.set now (lockKey email) (VLock lockData) lockoutDuration ;;;
     try_catch
       (profile <- ProfileModel.findByEmail email ;;
        match profile with
        | Some p =>
            EmailService.sendAccountLockedNotification
              (mkNotification email (orUser (p_display_name p))
                              (ld_reason lockData) lockedUntil)
        | None => ret tt
        end)
       (fun emailError => ret tt))
    (fun error => ret tt).

Definition trackFailedAttempt (now : Z) (email ipAddress : string) : M AttemptStatus :=
  try_catch
    (attempts <- CacheService.incr now (attemptsKey email) attemptWindow ;;
     ipAttempts <- CacheService.incr now (ipKey ipAddress) attemptWindow ;;
     (if maxAttempts <=? attempts
      then lockAccount now email attempts ipAddress
      else ret tt) ;;;
     ret (mkAttemptStatus attempts ipAttempts
                          (Z.max 0 (maxAttempts - attempts))
                          (maxAttempts <=? attempts)))
    (fun error => ret (mkAttemptStatus 0 0 maxAttempts false)).

Definition clearAttempts (email ipAddress : string) : M unit :=
  try_catch
    (CacheService.del (attemptsKey email) ;;;
     CacheService.del (ipKey ipAddress) ;;;
     CacheService.del (lockKey email))
    (fun error => ret tt).

Definition isAccountLocked (now : Z) (email : string) : M LockStatus :=
  try_catch
    (lockData <- CacheService.get now (lockKey email) ;;
     match lockData with
     | Some (VLock l) =>
         let remainingTime := ceilMinutes (ld_lockedUntil l - now) in
         ret (mkLockStatus true (Some (ld_reason l)) (Some (ld_lockedUntil l))
                           (Some (if 0 <? remainingTime then remainingTime else 1)))
     | Some (VNum n) =>
         (* a non-zero number is truthy; its [lockedUntil] is undefined
            and the remaining time NaN *)
         if n =? 0 then ret notLocked
         else ret (mkLockStatus true None None (Some 1))
     | None => ret notLocked
     end)
    (fun error => ret notLocked).

(** [cacheService.get(ipKey) || 0] compared with [>=]: an object
    compares as NaN. *)
Definition ipCount (v : option CacheValue) : option Z :=
  match v with
  | Some (VNum n) => Some n
  | Some (VLock _) => None
  | None => Some 0
  end.

Definition geOpt (v : option Z) (k : Z) : bool :=
  match v with
  | Some n => k <=? n
  | None => false
  end.

Definition lockedResponse (lockStatus : LockStatus) : Response :=
  let minutes := default 0 (remainingMinutes lockStatus) in
  mkResponse 429
    (LockedBody "Tài khoản tạm thời bị khóa do nhiều lần đăng nhập thất bại"
                (reason lockStatus) minutes
                ("Vui lòng thử lại sau " +:+ pretty minutes +:+ " phút.")).

Definition rateLimitedResponse : Response :=
  mkResponse 429
    (RateLimitBody "Quá nhiều yêu cầu từ địa chỉ IP này."
                   "Vui lòng thử lại sau 15 phút.").

Definition checkLoginAttempts (now : Z) (req : Request) : M Handled :=
  let ipAddress := req_ip req in
  if negb (truthy (req_email req)) then ret (Next req)
  else
    let email := default "" (req_email req) in
    try_catch
      (lockStatus <- isAccountLocked now email ;;
       if isLocked lockStatus then ret (Respond (lockedResponse lockStatus))
       else
         ipAttempts <- CacheService.get now (ipKey ipAddress) ;;
         if geOpt (ipCount ipAttempts) (maxAttempts * 2)
         then ret (Respond rateLimitedResponse)
         else
           ret (Next (mkRequest (req_email req) (req_password req) (req_ip req)
                                (Some (mkTracking email ipAddress)))))
      (fun error => ret (Next req)).

End LoginAttempts.

(** ** src/controllers/authController.js *)

Module AuthController.

Definition login (now : Z) (req : Request) : M Handled :=
  try_catch
    (let email := req_email req in
     let password := req_password req in
     r <- Supabase.signInWithPassword email password ;;
     match r with
     | (_, Some signInError) =>
         ret (Respond (mkResponse 401 (FailBody "Invalid email or password")))
     | (None, None) => throw (DbError "user is null")
     | (Some user, None) =>
         userProfile <- ProfileModel.findById (u_id user) ;;
         match userProfile with
         | None =>
             ret (Respond (mkResponse 401
                    (FailBody "Invalid credentials. Profile not found.")))
         | Some userProfile =>
             if String.eqb (p_account_status userProfile) "suspended" then
               ret (Respond (mkResponse 403
                      (FailBody "Your account has been suspended.")))
             else if String.eqb (p_account_status userProfile) "pending_verification" then
               ret (Respond (mkResponse 403
                      (FailBody "Please verify your email before logging in.")))
             else
               let appToken :=
                 generateToken (p_id userProfile) (u_email user) (p_role userProfile) in
               ProfileModel.update (p_id userProfile) now ;;;
               ret (Respond (mkResponse 200
                      (LoginBody "Login successful" userProfile appToken)))
         end
     end)
    (fun error => ret (NextError error)).

Definition genericResetMessage : string :=
  "If an account with that email exists, a password reset link has been sent.".

(** [resetPasswordForEmail] is the credential directory's call
    [supabase.auth.resetPasswordForEmail]: it answers with the error it
    reports, if any, or throws. *)
Definition forgotPassword
    (resetPasswordForEmail : option string -> M (option string))
    (req : Request) : M Handled :=
  try_catch
    (let email := req_email req in
     error <- resetPasswordForEmail email ;;
     (* an error is logged and otherwise ignored *)
     ret (Respond (mkResponse 200 (SuccessBody genericResetMessage))))
    (fun error => ret (NextError error)).

End AuthController.

(** ** src/routes/authRoutes.js *)

Module AuthRoutes.

(** [router.post('/login', rateLimiters.auth,
    loginAttempts.checkLoginAttempts(), authController.login)], from the
    gate on: the controller runs when the gate calls [next()]. *)
Definition postLogin (now : Z) (req : Request) : M Handled :=
  g <- LoginAttempts.checkLoginAttempts now req ;;
  match g with
  | Next req' => AuthController.login now req'
  | other => ret other
  end.

End AuthRoutes.

(** ** src/config/auth.js *)

Module PassportConfig.

Record JwtPayload := mkJwtPayload {
  jp_userId : option string;
  jp_email : option string;
  jp_role : option string
}.

(** The profile handed over by the Google strategy. *)
Record GoogleProfile := mkGoogleProfile {
  g_emails : list string;
  g_displayName : string
}.

(** The three ways a verify callback calls [done]. *)
Inductive Done :=
| DoneUser (user : Profile)
| DoneFalse (message : string)
| DoneError (e : Err).

Definition jwtVerify (payload : JwtPayload) : M Done :=
  try_catch
    (if negb (truthy (jp_userId payload)) || negb (truthy (jp_email payload))
     then ret (DoneFalse "Invalid token payload")
     else
       profile <- ProfileModel.findById (default "" (jp_userId payload)) ;;
       match profile with
       | None => ret (DoneFalse "User not found")
       | Some profile =>
           if String.eqb (p_account_status profile) "suspended"
           then ret (DoneFalse "Account is suspended")
           else ret (DoneUser profile)
       end)
    (fun error => ret (DoneError error)).

(** [newId] is the id the directory assigns should the callback have to
    create the identity. *)
Definition googleVerify (now : Z) (newId : string) (profile : GoogleProfile) : M Done :=
  try_catch
    (match g_emails profile with
     | [] => ret (DoneFalse "No email found in Google profile")
     | email :: _ =>
         let display_name := g_displayName profile in
         r <- Supabase.getUserByEmail email ;;
         let '(existingAuthUser, findError) := r in
         match findError with
         | Some st => if negb (st =? 404) then throw (DbError "getUserByEmail") else ret tt
         | None => ret tt
         end ;;;
         created <-
           match existingAuthUser with
           | Some authUser =>
               userProfile <- ProfileModel.findById (u_id authUser) ;;
               match userProfile with
               | Some userProfile => ret (inr userProfile)
               | None =>
                   userProfile <- ProfileModel.create
                     (ProfileModel.mkProfileData (u_id authUser) display_name
                                                 "learner" (Some "active")) ;;
                   ret (inr userProfile)
               end
           | None =>
               c <- Supabase.createUser newId email ;;
               match c with
               | (_, Some createError) => ret (inl (DbError createError))
               | (None, None) => throw (DbError "user is null")
               | (Some authUser, None) =>
                   userProfile <- ProfileModel.create
                     (ProfileModel.mkProfileData (u_id authUser) display_name
                                                 "learner" (Some "active")) ;;
                   ret (inr userProfile)
               end
           end ;;
         match created with
         | inl createError => ret (DoneError createError)
         | inr userProfile =>
             if String.eqb (p_account_status userProfile) "suspended"
             then ret (DoneFalse "Account is suspended")
             else
               ProfileModel.update (p_id userProfile) now ;;;
               ret (DoneUser userProfile)
         end
     end)
    (fun error => ret (DoneError error)).

End PassportConfig.

(** ** Vocabulary of the properties *)

(** The world once the next cache call has used up its entry of the
    fault schedule. *)
Definition consume (w : World) : World := set_faults (tail (w_faults w)) w.


(** The counters kept per client address are numbers. *)
Definition ipCountersTyped (c : gmap string Entry) : Prop :=
  forall ip e, c !! LoginAttempts.ipKey ip = Some e -> exists n, e_value e = VNum n.

(** Failed attempts on one address, each with the instant and the client
    address it comes from, tracked one after the other. *)
Definition trackSeq (email : string) (events : list (Z * string)) (w : World) : World :=
  foldl (fun w ev => snd (LoginAttempts.trackFailedAttempt (fst ev) email (snd ev) w))
        w events.

(** A profile row with its [last_seen_at] set. *)
Definition touch (now : Z) (r : ProfileRow) : ProfileRow :=
  mkProfileRow (r_display_name r) (r_role r) (r_account_status r) (Some now).

Definition isDoneError (d : PassportConfig.Done) : bool :=
  match d with
  | PassportConfig.DoneError _ => true
  | _ => false
  end.

(** Worlds and requests used to exercise the statements. *)
Module Examples.

Definition alice : string := "a@x.com".
Definition aliceId : string := "7b0e1c52-0000-4000-8000-000000000001".
Definition clientIp : string := "203.0.113.7".

Definition users : gmap string UserRow :=
  {[ alice := mkUserRow aliceId (Some "correct horse") true ]}.

Definition profilesWith (st : string) : gmap string ProfileRow :=
  {[ aliceId := mkProfileRow "Alice" "learner" st None ]}.

(** An empty cache that works; Alice is registered and active. *)
Definition world0 : World :=
  mkWorld ∅ [] users (profilesWith "active") true [].

Definition worldStatus (st : string) : World :=
  mkWorld ∅ [] users (profilesWith st) true [].

(** Alice has two failed attempts on record, tracked at instant 1000. *)
Definition worldTwoFailures : World :=
  trackSeq alice [(1000, clientIp); (1000, clientIp)] world0.

(** A live lock record for Alice. *)
Definition aliceLock : LockData :=
  mkLockData alice 5 clientIp 1000 901000 "5 failed login attempts".

Definition worldLocked : World :=
  set_cache {[ LoginAttempts.lockKey alice := mkEntry (VLock aliceLock) 901000 ]} world0.

(** The client address has ten failures on record. *)
Definition worldIpTen : World :=
  set_cache {[ LoginAttempts.ipKey clientIp := mkEntry (VNum 10) 901000 ]} world0.

(** Every cache call throws. *)
Definition worldCacheDown : World :=
  set_faults [true; true; true; true] worldLocked.


(** The identity exists, the profile row is missing. *)
Definition worldDrift : World :=
  mkWorld ∅ [] users ∅ true [].

Definition loginReq (password : string) : Request :=
  mkRequest (Some alice) (Some password) clientIp None.

Definition noEmailReq : Request :=
  mkRequest None (Some "correct horse") clientIp None.

Definition googleAlice : PassportConfig.GoogleProfile :=
  PassportConfig.mkGoogleProfile [alice] "Alice".

Definition bobId : string := "7b0e1c52-0000-4000-8000-000000000002".

Definition alicePayload : PassportConfig.JwtPayload :=
  PassportConfig.mkJwtPayload (Some aliceId) (Some alice) (Some "learner").

(** A directory whose reset call reports an error for unknown
    addresses. *)
Definition resetReporting (email : option string) : M (option string) :=
  fun w =>
    match email with
    | Some e =>
        match w_users w !! e with
        | Some _ => (Ok None, w)
        | None => (Ok (Some "User not found"), w)
        end
    | None => (Ok (Some "Email required"), w)
    end.

End Examples.

(** ** src/middleware/protection/loginAttempts.js: [getAttemptStatus] *)

Module LoginAttemptsStatus.

(** The object [getAttemptStatus] answers with.  [parseInt] of a value
    that is not a number is NaN, written [None]; so is the remaining count
    computed from it. *)
Record AttemptReport := mkAttemptReport {
  rp_attempts : option Z;
  rp_maxAttempts : Z;
  rp_remainingAttempts : option Z;
  rp_isLocked : bool;
  rp_lockDetails : option LoginAttempts.LockStatus
}.

Definition getAttemptStatus (now : Z) (email : string) : M AttemptReport :=
  try_catch
    (v <- CacheService.get now (LoginAttempts.attemptsKey email) ;;
     let attempts := LoginAttempts.ipCount v in
     lockStatus <- LoginAttempts.isAccountLocked now email ;;
     ret (mkAttemptReport
            attempts
            LoginAttempts.maxAttempts
            (match attempts with
             | Some n => Some (Z.max 0 (LoginAttempts.maxAttempts - n))
             | None => None
             end)
            (LoginAttempts.isLocked lockStatus)
            (if LoginAttempts.isLocked lockStatus then Some lockStatus else None)))
    (fun error =>
       ret (mkAttemptReport (Some 0) LoginAttempts.maxAttempts
                            (Some LoginAttempts.maxAttempts) false None)).

End LoginAttemptsStatus.

(** ** src/models/Profile.js: [update] with any set of columns *)

Module ProfileUpdate.

(** The object of columns handed to [Profile.update]; a column that is
    [undefined] is not sent and keeps its value. *)
Record Updates := mkUpdates {
  up_display_name : option string;
  up_role : option string;
  up_account_status : option string;
  up_last_seen_at : option Z
}.

Definition noUpdates : Updates := mkUpdates None None None None.

Definition applyUpdates (u : Updates) (r : ProfileRow) : ProfileRow :=
  mkProfileRow
    (default (r_display_name r) (up_display_name u))
    (default (r_role r) (up_role u))
    (default (r_account_status r) (up_account_status u))
    (match up_last_seen_at u with
     | Some t => Some t
     | None => r_last_seen_at r
     end).

(** [from('profiles').update(updates).eq('id', id).select().single()] *)
Definition updateProfile (id : string) (u : Updates) : M (option Profile * option string) :=
  fun w =>
    match w_profiles w !! id with
    | Some r =>
        (Ok (Some (profileOf id (applyUpdates u r)), None),
         set_profiles (<[id := applyUpdates u r]> (w_profiles w)) w)
    | None => (Ok (None, Some "PGRST116"), w)
    end.

Definition update (id : string) (updates : Updates) : M Profile :=
  r <- updateProfile id updates ;;
  match r with
  | (_, Some code) => throw (DbError code)
  | (Some data, None) => ret data
  | (None, None) => throw (DbError "no data")
  end.

End ProfileUpdate.

(** ** Replies of the admin and profile controllers *)

(** [res.status(status).json({ success, error | message, data })], or
    [next(error)]. *)
Inductive Reply :=
| Json (status : Z) (success : bool) (text : string) (data : option Profile)
| Failed (e : Err).

(** ** src/controllers/adminController.js *)

Module AdminController.

(** [req.user] as set by the JWT middleware, and [req.body.userId]. *)
Record BanRequest := mkBanRequest {
  br_user : Profile;
  br_userId : string
}.

Definition banAccount (req : BanRequest) : M Reply :=
  try_catch
    (let userId := br_userId req in
     targetProfile <- ProfileModel.findById userId ;;
     match targetProfile with
     | None => ret (Json 404 false "User not found" None)
     | Some targetProfile =>
         if String.eqb (p_role targetProfile) "admin"
         then ret (Json 403 false "Cannot ban another admin" None)
         else
           ProfileUpdate.update userId
             (ProfileUpdate.mkUpdates None None (Some "suspended") None) ;;;
           ret (Json 200 true
                  ("Account for user " +:+ userId +:+ " has been suspended.") None)
     end)
    (fun error => ret (Failed error)).

Definition unbanAccount (req : BanRequest) : M Reply :=
  try_catch
    (let userId := br_userId req in
     updatedProfile <- ProfileUpdate.update userId
                         (ProfileUpdate.mkUpdates None None (Some "active") None) ;;
     ret (Json 200 true
            ("Account for user " +:+ p_id updatedProfile +:+ " has been reactivated.")
            None))
    (fun error => ret (Failed error)).

End AdminController.

(** ** src/controllers/profileController.js *)

Module ProfileController.

(** [req.user] and [req.body.display_name]. *)
Record ProfileRequest := mkProfileRequest {
  pr_user : Profile;
  pr_display_name : option string
}.

Definition updateMyProfile (req : ProfileRequest) : M Reply :=
  try_catch
    (let userId := p_id (pr_user req) in
     updatedProfile <- ProfileUpdate.update userId
                         (ProfileUpdate.mkUpdates (pr_display_name req) None None None) ;;
     ret (Json 200 true "Profile updated successfully." (Some updatedProfile)))
    (fun error => ret (Failed error)).

Definition deletionMessage : string :=
  "Your account deletion request has been received. Your account is now suspended and will be permanently deleted by an administrator shortly.".

Definition requestAccountDeletion (req : ProfileRequest) : M Reply :=
  try_catch
    (let userId := p_id (pr_user req) in
     ProfileUpdate.update userId
       (ProfileUpdate.mkUpdates None None (Some "suspended") None) ;;;
     ret (Json 200 true deletionMessage None))
    (fun error => ret (Failed error)).

End ProfileController.

(** ** src/config/auth.js: the session hooks *)

Module PassportSession.

(** [passport.serializeUser]: [done(null, user.id)]. *)
Definition serializeUser (user : Profile) : string := p_id user.

(** [passport.deserializeUser]: [done(null, profile)], or
    [done(error, null)]. *)
Definition deserializeUser (id : string) : M (Err + option Profile) :=
  try_catch
    (profile <- ProfileModel.findById id ;;
     ret (inr profile))
    (fun error => ret (inl error)).

End PassportSession.

(** Failed attempts on several addresses, each with its instant, the
    address it targets and the client address it comes from. *)
Definition trackEvents (events : list (Z * string * string)) (w : World) : World :=
  foldl (fun w ev =>
           snd (LoginAttempts.trackFailedAttempt (fst (fst ev)) (snd (fst ev)) (snd ev) w))
        w events.

(** Every counter the guard keeps, per address and per client, is a
    number. *)
Definition countersTyped (c : gmap string Entry) : Prop :=
  ipCountersTyped c
  /\ forall email e, c !! LoginAttempts.attemptsKey email = Some e ->
                     exists n, e_value e = VNum n.

(** ** Requests with and without a parsed body *)

(** [req] as Express hands it to the login route: with [req.body]
    parsed, or with [req.body] undefined because no body was parsed. *)
Inductive Incoming :=
| Parsed (req : Request)
| Unparsed (ip : string).

Module LoginGate.

Definition noBody : string :=
  "Cannot destructure property 'email' of 'req.body' as it is undefined.".

(** The middleware [checkLoginAttempts()] returns, from its first line
    on: [const { email } = req.body] stands before the [try] and throws
    when there is no body; with a body the rest of the function runs. *)
Definition checkLoginAttempts (now : Z) (inc : Incoming) : M Handled :=
  match inc with
  | Unparsed _ => throw (TypeError noBody)
  | Parsed req => LoginAttempts.checkLoginAttempts now req
  end.

End LoginGate.

(** ** The [teachers_info] table *)

(** A row of [teachers_info], stored under its [user_id]. *)
Record TeacherInfo := mkTeacherInfo {
  ti_institution : option string;
  ti_credentials_url : option string;
  ti_verification_status : string;
  ti_rejection_reason : option string
}.

(** The world together with the [teachers_info] table. *)
Record Db := mkDb {
  db_world : World;
  db_teachers : gmap string TeacherInfo
}.

(** Promises over [Db]. *)
Definition MT (A : Type) : Type := Db -> Res A * Db.

Definition retT {A} (a : A) : MT A := fun d => (Ok a, d).

Definition throwT {A} (e : Err) : MT A := fun d => (Throw e, d).

Definition bindT {A B} (m : MT A) (k : A -> MT B) : MT B :=
  fun d => match m d with
           | (Ok a, d') => k a d'
           | (Throw e, d') => (Throw e, d')
           end.

Definition try_catchT {A} (m : MT A) (h : Err -> MT A) : MT A :=
  fun d => match m d with
           | (Ok a, d') => (Ok a, d')
           | (Throw e, d') => h e d'
           end.

(** A call that does not concern [teachers_info]. *)
Definition liftW {A} (m : M A) : MT A :=
  fun d => match m (db_world d) with
           | (r, w') => (r, mkDb w' (db_teachers d))
           end.

Declare Scope jsdb_scope.
Delimit Scope jsdb_scope with jsdb.
Notation "x <~ c1 ;; c2" := (bindT c1 (fun x => c2))
  (at level 100, c1 at next level, right associativity) : jsdb_scope.
Notation "c1 ;;~ c2" := (bindT c1 (fun _ => c2))
  (at level 100, right associativity) : jsdb_scope.
Local Open Scope jsdb_scope.

(** ** src/models/ProfileExtensions.js *)

Module ProfileExtensions.

(** [from('teachers_info').insert(row).select().single()]; [user_id] is
    unique, a second row for it is refused with code 23505. *)
Definition insertTeacher (userId : string) (row : TeacherInfo)
  : MT (option TeacherInfo * option string) :=
  fun d =>
    match db_teachers d !! userId with
    | Some _ => (Ok (None, Some "23505"), d)
    | None => (Ok (Some row, None), mkDb (db_world d) (<[userId := row]> (db_teachers d)))
    end.

(** [from('teachers_info').update({ verification_status, rejection_reason })
    .eq('user_id', userId).select().single()] *)
Definition updateTeacher (userId status : string) (reason : option string)
  : MT (option TeacherInfo * option string) :=
  fun d =>
    match db_teachers d !! userId with
    | Some t =>
        let t' := mkTeacherInfo (ti_institution t) (ti_credentials_url t) status reason in
        (Ok (Some t', None), mkDb (db_world d) (<[userId := t']> (db_teachers d)))
    | None => (Ok (None, Some "PGRST116"), d)
    end.

Definition createTeacherInfo (userId : string) (institution credentials_url : option string)
  : MT (option TeacherInfo) :=
  r <~ insertTeacher userId (mkTeacherInfo institution credentials_url "pending" None) ;;
  match r with
  | (data, Some code) =>
      if negb (String.eqb code "23505") then throwT (DbError code) else retT data
  | (data, None) => retT data
  end.

Definition updateTeacherVerification (userId status : string) (reason : option string)
  : MT (option TeacherInfo) :=
  r <~ updateTeacher userId status reason ;;
  match r with
  | (_, Some code) => throwT (DbError code)
  | (data, None) => retT data
  end.

End ProfileExtensions.

(** ** src/controllers/authController.js: [register] *)

Module Register.

(** [req.body] of a registration. *)
Record RegisterRequest := mkRegisterRequest {
  rg_email : option string;
  rg_password : option string;
  rg_display_name : option string;
  rg_role : option string;
  rg_institution : option string;
  rg_credentials_url : option string
}.

(** [signUpError.message.includes("User already registered")] *)
Definition alreadyRegistered (message : string) : bool :=
  match String.index 0 "User already registered" message with
  | Some _ => true
  | None => false
  end.

Definition registeredMessage : string :=
  "Registration successful. Please check your email to verify your account.".

(** [signUp] is the credential directory's [supabase.auth.signUp], given
    the address, the password, the display name and the initial role: it
    answers with the new identity or with the error it reports, and may
    have the profile row created on the way. *)
Definition register
    (signUp : option string -> option string -> option string -> string ->
              M (option AuthUser * option string))
    (req : RegisterRequest) : MT Handled :=
  try_catchT
    (let role := default "learner" (rg_role req) in
     r <~ liftW (signUp (rg_email req) (rg_password req) (rg_display_name req) role) ;;
     match r with
     | (_, Some signUpError) =>
         if alreadyRegistered signUpError
         then retT (Respond (mkResponse 409 (FailBody "Email already registered")))
         else retT (NextError (DbError signUpError))
     | (None, None) => throwT (DbError "user is null")
     | (Some newAuthUser, None) =>
         newProfile <~ liftW (ProfileModel.findById (u_id newAuthUser)) ;;
         match newProfile with
         | None =>
             retT (Respond (mkResponse 500
                     (FailBody "Failed to initialize user profile.")))
         | Some newProfile =>
             (if String.eqb role "teacher"
              then ProfileExtensions.createTeacherInfo (p_id newProfile)
                     (rg_institution req) (rg_credentials_url req) ;;~ retT tt
              else retT tt) ;;~
             let appToken :=
               generateToken (p_id newProfile) (u_email newAuthUser) (p_role newProfile) in
             retT (Respond (mkResponse 201
                     (LoginBody registeredMessage newProfile appToken)))
         end
     end)
    (fun error => retT (NextError error)).

End Register.

(** ** src/controllers/adminController.js: [reviewTeacherRequest] *)

Module TeacherReview.

(** [req.params.teacherId], and [approved] and [reason] of [req.body]. *)
Record ReviewRequest := mkReviewRequest {
  rv_teacherId : string;
  rv_approved : bool;
  rv_reason : option string
}.

Definition reviewTeacherRequest (req : ReviewRequest) : MT Reply :=
  try_catchT
    (let teacherId := rv_teacherId req in
     ProfileExtensions.updateTeacherVerification teacherId
       (if rv_approved req then "approved" else "rejected") (rv_reason req) ;;~
     (if rv_approved req
      then liftW (ProfileUpdate.update teacherId
                    (ProfileUpdate.mkUpdates None (Some "teacher") None None)) ;;~ retT tt
      else retT tt) ;;~
     retT (Json 200 true
             (if rv_approved req then "Teacher request has been approved."
              else "Teacher request has been rejected.") None))
    (fun error => retT (Failed error)).

End TeacherReview.

(** A sign-up that creates the identity and, as the database trigger is
    meant to, the profile row with the initial role, both pending
    verification; it reports "User already registered" for a known
    address. *)
Definition signUpWithTrigger (newId : string)
    (email password display_name : option string) (role : string)
  : M (option AuthUser * option string) :=
  fun w =>
    match email with
    | None => (Ok (None, Some "Anonymous sign-ins are disabled"), w)
    | Some e =>
        match w_users w !! e with
        | Some _ => (Ok (None, Some "User already registered"), w)
        | None =>
            (Ok (Some (mkAuthUser newId e), None),
             set_profiles
               (<[newId := mkProfileRow (default "" display_name) role
                                        "pending_verification" None]> (w_profiles w))
               (set_users (<[e := mkUserRow newId password false]> (w_users w)) w))
        end
    end.

(** More worlds and requests used to exercise the statements. *)
Module MoreExamples.

(** Alice has four failed attempts on record, the window open until
    instant 901000. *)
Definition worldFourFailures : World :=
  set_cache {[ LoginAttempts.attemptsKey Examples.alice := mkEntry (VNum 4) 901000 ]}
            Examples.world0.

End MoreExamples.

(** * Properties *)

(** ** The monad and the cache service *)

Section Basics.

Lemma set_faults_same w : set_faults (w_faults w) w = w.
Proof. by destruct w. Qed.

Lemma consume_nofault w : w_faults w = [] -> consume w = w.
Proof. intros H. unfold consume. rewrite H. simpl. rewrite <- H. apply set_faults_same. Qed.

Lemma call_ok {A} (body : M A) w :
  head (w_faults w) <> Some true -> CacheService.call body w = body (consume w).
Proof.
  unfold CacheService.call, consume. destruct w as [c f u p m o]. simpl.
  intros H. destruct f as [|[] fs]; simpl in *; first [done | congruence].
Qed.

Lemma call_throws {A} (body : M A) w :
  head (w_faults w) = Some true ->
  CacheService.call body w = (Throw CacheError, consume w).
Proof.
  unfold CacheService.call, consume. destruct w as [c f u p m o]. simpl.
  intros H. destruct f as [|[] fs]; simpl in *; first [done | congruence].
Qed.

Lemma call_nofault {A} (body : M A) w :
  w_faults w = [] -> CacheService.call body w = body w.
Proof. intros H. unfold CacheService.call. by rewrite H. Qed.

Lemma get_nofault now key w :
  w_faults w = [] ->
  CacheService.get now key w = (Ok (CacheService.peek now key (w_cache w)), w).
Proof. intros H. unfold CacheService.get. by rewrite call_nofault. Qed.

Lemma get_cases now key w :
  CacheService.get now key w = (Throw CacheError, consume w) \/
  CacheService.get now key w
    = (Ok (CacheService.peek now key (w_cache w)), consume w).
Proof.
  unfold CacheService.get.
  destruct (decide (head (w_faults w) = Some true)) as [H|H].
  - left. by apply call_throws.
  - right. by rewrite call_ok.
Qed.

Lemma consume_cache w : w_cache (consume w) = w_cache w.
Proof. done. Qed.

End Basics.

(** ** Cache keys *)

Section Keys.

Import LoginAttempts.

Lemma attemptsKey_ne_lockKey e e' : attemptsKey e <> lockKey e'.
Proof.
  unfold attemptsKey, lockKey. intros H.
  apply (f_equal (String.get 0)) in H. cbv in H. discriminate.
Qed.

Lemma attemptsKey_ne_ipKey e ip : attemptsKey e <> ipKey ip.
Proof.
  unfold attemptsKey, ipKey. intros H.
  apply (f_equal (String.get 14)) in H. cbv in H. discriminate.
Qed.

Lemma ipKey_ne_lockKey ip e : ipKey ip <> lockKey e.
Proof.
  unfold ipKey, lockKey. intros H.
  apply (f_equal (String.get 0)) in H. cbv in H. discriminate.
Qed.

End Keys.

(** ** The lockout guard: reading *)

Section GuardReads.

Import LoginAttempts.

Lemma ceilMinutes_spec d :
  60000 * (ceilMinutes d - 1) < d <= 60000 * ceilMinutes d.
Proof.
  unfold ceilMinutes.
  pose proof (Z.div_mod (- d) 60000 ltac:(lia)).
  pose proof (Z.mod_pos_bound (- d) 60000 ltac:(lia)).
  lia.
Qed.


Lemma isAccountLocked_record now email w l :
  head (w_faults w) <> Some true ->
  CacheService.peek now (lockKey email) (w_cache w) = Some (VLock l) ->
  isAccountLocked now email w
  = (Ok (mkLockStatus true (Some (ld_reason l)) (Some (ld_lockedUntil l))
           (Some (if 0 <? ceilMinutes (ld_lockedUntil l - now)
                  then ceilMinutes (ld_lockedUntil l - now) else 1))),
     consume w).
Proof.
  intros H Hp. unfold isAccountLocked, try_catch, bind, CacheService.get.
  rewrite call_ok by done. rewrite consume_cache, Hp. done.
Qed.

Lemma isAccountLocked_absent now email w :
  CacheService.peek now (lockKey email) (w_cache w) = None ->
  isAccountLocked now email w = (Ok notLocked, consume w).
Proof.
  intros Hp. unfold isAccountLocked, try_catch, bind.
  destruct (get_cases now (lockKey email) w) as [-> | ->]; [done|].
  by rewrite Hp.
Qed.

(** The guard only ever reads here: the cache is left as it was. *)
Lemma isAccountLocked_world now email w :
  snd (isAccountLocked now email w) = consume w.
Proof.
  unfold isAccountLocked, try_catch, bind.
  destruct (get_cases now (lockKey email) w) as [-> | ->]; [done|].
  destruct (CacheService.peek _ _ _) as [[n|l]|]; simpl; try done.
  by destruct (n =? 0).
Qed.

End GuardReads.

(** C6. For an e-mail address with a lock record in the cache,
    [isAccountLocked] answers [isLocked: true] with [remainingMinutes]
    equal to the ceiling of [(lockedUntil - now) / 60000] when that is
    positive and to 1 otherwise, hence at least 1; with no lock record it
    answers [isLocked: false]. *)
Theorem C6_isAccountLocked_remaining_minutes (now : Z) (email : string) (w : World) :
  head (w_faults w) <> Some true ->
  (forall l,
      CacheService.peek now (LoginAttempts.lockKey email) (w_cache w) = Some (VLock l) ->
      let c := LoginAttempts.ceilMinutes (ld_lockedUntil l - now) in
      exists m,
        fst (LoginAttempts.isAccountLocked now email w)
        = Ok (LoginAttempts.mkLockStatus true (Some (ld_reason l))
                (Some (ld_lockedUntil l)) (Some m))
        /\ 60000 * (c - 1) < ld_lockedUntil l - now <= 60000 * c
        /\ (0 < c -> m = c)
        /\ (c <= 0 -> m = 1)
        /\ 1 <= m)
  /\ (CacheService.peek now (LoginAttempts.lockKey email) (w_cache w) = None ->
      fst (LoginAttempts.isAccountLocked now email w) = Ok LoginAttempts.notLocked).
Proof.
  intros Hf. split.
  - intros l Hp c.
    exists (if 0 <? c then c else 1).
    rewrite (isAccountLocked_record now email w l Hf Hp). simpl.
    split; [done|]. split; [apply ceilMinutes_spec|].
    destruct (Z.ltb_spec 0 c); lia.
  - intros Hp. by rewrite isAccountLocked_absent.
Qed.

Lemma C6_isAccountLocked_witness :
  head (w_faults Examples.worldLocked) <> Some true /\
  (exists m,
      fst (LoginAttempts.isAccountLocked 900500 Examples.alice Examples.worldLocked)
      = Ok (LoginAttempts.mkLockStatus true (Some "5 failed login attempts")
              (Some 901000) (Some m))
      /\ 1 <= m).
Proof.
  split; [discriminate|].
  destruct (C6_isAccountLocked_remaining_minutes 900500 Examples.alice
              Examples.worldLocked ltac:(discriminate)) as [H _].
  destruct (H Examples.aliceLock eq_refl) as (m & Hm & _ & _ & _ & Hle).
  exists m. split; [exact Hm | exact Hle].
Defined.

(** ** The login gate *)

Section Gate.

Import LoginAttempts.

Lemma gate_no_email now req w :
  truthy (req_email req) = false ->
  checkLoginAttempts now req w = (Ok (Next req), w).
Proof. intros H. unfold checkLoginAttempts. by rewrite H. Qed.

Lemma truthy_some email : email <> "" -> truthy (Some email) = true.
Proof.
  intros H. simpl. destruct (String.eqb_spec email ""); [congruence|done].
Qed.

(** With the lock record read and found, the gate answers at once. *)
Lemma gate_locked now req w email l :
  req_email req = Some email -> email <> "" ->
  head (w_faults w) <> Some true ->
  CacheService.peek now (lockKey email) (w_cache w) = Some (VLock l) ->
  checkLoginAttempts now req w
  = (Ok (Respond (lockedResponse
           (mkLockStatus true (Some (ld_reason l)) (Some (ld_lockedUntil l))
              (Some (if 0 <? ceilMinutes (ld_lockedUntil l - now)
                     then ceilMinutes (ld_lockedUntil l - now) else 1))))),
     consume w).
Proof.
  intros He Hne Hf Hp. unfold checkLoginAttempts.
  rewrite He, truthy_some by done. simpl.
  unfold try_catch, bind.
  by rewrite (isAccountLocked_record now email w l Hf Hp).
Qed.

(** Once the address is found not locked, the gate goes by the counter
    of the client address, read from the world the lock check left. *)
Lemma gate_not_locked now req w email :
  req_email req = Some email -> email <> "" ->
  isAccountLocked now email w = (Ok notLocked, consume w) ->
  checkLoginAttempts now req w
  = match CacheService.get now (ipKey (req_ip req)) (consume w) with
    | (Ok v, w') =>
        if geOpt (ipCount v) (maxAttempts * 2)
        then (Ok (Respond rateLimitedResponse), w')
        else (Ok (Next (mkRequest (req_email req) (req_password req) (req_ip req)
                                  (Some (mkTracking email (req_ip req))))), w')
    | (Throw _, w') => (Ok (Next req), w')
    end.
Proof.
  intros He Hne Hl. unfold checkLoginAttempts.
  rewrite He, truthy_some by done. simpl.
  unfold try_catch, bind. rewrite Hl. simpl.
  destruct (CacheService.get now (ipKey (req_ip req)) (consume w)) as [[v|e] w'];
    [|done].
  by destruct (geOpt (ipCount v) (maxAttempts * 2)).
Qed.

(** The gate never writes to the cache. *)
Lemma gate_cache now req w :
  w_cache (snd (checkLoginAttempts now req w)) = w_cache w.
Proof.
  unfold checkLoginAttempts.
  destruct (truthy (req_email req)); simpl; [|done].
  unfold try_catch, bind.
  pose proof (isAccountLocked_world now (default "" (req_email req)) w) as Hw.
  destruct (isAccountLocked now (default "" (req_email req)) w) as [[st|e] w1].
  - simpl in Hw. subst w1. destruct (isLocked st); [done|].
    destruct (get_cases now (ipKey (req_ip req)) (consume w)) as [-> | ->]; [done|].
    by destruct (geOpt _ _).
  - simpl in Hw. by subst w1.
Qed.



(** Whatever the cache does, the gate ends in [next()] or in a 429
    response, and it writes nothing. *)
Lemma gate_outcomes now req w :
  (exists h, fst (checkLoginAttempts now req w) = Ok h
             /\ match h with
                | Next _ => True
                | NextError _ => False
                | Respond r => status r = 429
                end)
  /\ w_cache (snd (checkLoginAttempts now req w)) = w_cache w
  /\ w_users (snd (checkLoginAttempts now req w)) = w_users w
  /\ w_profiles (snd (checkLoginAttempts now req w)) = w_profiles w
  /\ w_outbox (snd (checkLoginAttempts now req w)) = w_outbox w.
Proof.
  unfold checkLoginAttempts.
  destruct (truthy (req_email req)); simpl;
    [|split; [eexists; split; [reflexivity|done]|done]].
  unfold try_catch, bind, isAccountLocked, try_catch, bind,
    CacheService.get, CacheService.call.
  destruct w as [c f u p m o]. simpl.
  destruct (CacheService.peek now (lockKey (default "" (req_email req))) c) as [[n|l]|];
    destruct (CacheService.peek now (ipKey (req_ip req)) c) as [[k|l']|];
    destruct f as [|[] [|[] f]]; simpl;
    repeat match goal with
      | |- context [if ?b then _ else _] => destruct b eqn:?; simpl
      end;
    (split; [eexists; split; [reflexivity|done]|done]).
Qed.


End Gate.

Section Route.

Lemma postLogin_respond now req w r w' :
  LoginAttempts.checkLoginAttempts now req w = (Ok (Respond r), w') ->
  AuthRoutes.postLogin now req w = (Ok (Respond r), w').
Proof. intros H. unfold AuthRoutes.postLogin, bind. by rewrite H. Qed.

Lemma postLogin_next now req w req' w' :
  LoginAttempts.checkLoginAttempts now req w = (Ok (Next req'), w') ->
  AuthRoutes.postLogin now req w = AuthController.login now req' w'.
Proof. intros H. unfold AuthRoutes.postLogin, bind. by rewrite H. Qed.

End Route.

(** C9. A login request whose body has no [email] field goes straight
    through the gate: no cache call is made, whatever lock records and
    counters exist, the request leaves the gate as it came (no tracking
    hooks attached), and the controller runs next. *)
Theorem C9_gate_skips_request_without_email (now : Z) (req : Request) (w : World) :
  req_email req = None ->
  LoginAttempts.checkLoginAttempts now req w = (Ok (Next req), w)
  /\ AuthRoutes.postLogin now req w = AuthController.login now req w.
Proof.
  intros He.
  assert (Hg : LoginAttempts.checkLoginAttempts now req w = (Ok (Next req), w)).
  { apply gate_no_email. by rewrite He. }
  split; [exact Hg|]. by apply postLogin_next.
Qed.

Lemma C9_gate_skips_witness :
  req_email Examples.noEmailReq = None
  /\ LoginAttempts.checkLoginAttempts 2000 Examples.noEmailReq Examples.worldLocked
     = (Ok (Next Examples.noEmailReq), Examples.worldLocked).
Proof.
  split; [reflexivity|].
  exact (proj1 (C9_gate_skips_request_without_email 2000 Examples.noEmailReq
                  Examples.worldLocked eq_refl)).
Defined.

(** C8. A request that carries an e-mail address which is not locked,
    from a client address whose counter has reached twice [maxAttempts],
    is answered by the gate with the 429 rate-limit response; the
    controller, and with it the credential check, does not run. *)
Theorem C8_gate_ip_cutoff (now : Z) (req : Request) (w : World)
    (email : string) (n : Z) :
  req_email req = Some email -> email <> "" ->
  w_faults w = [] ->
  CacheService.peek now (LoginAttempts.lockKey email) (w_cache w) = None ->
  CacheService.peek now (LoginAttempts.ipKey (req_ip req)) (w_cache w) = Some (VNum n) ->
  LoginAttempts.maxAttempts * 2 <= n ->
  LoginAttempts.checkLoginAttempts now req w
  = (Ok (Respond LoginAttempts.rateLimitedResponse), w)
  /\ status LoginAttempts.rateLimitedResponse = 429
  /\ AuthRoutes.postLogin now req w
     = (Ok (Respond LoginAttempts.rateLimitedResponse), w).
Proof.
  intros He Hne Hf Hl Hi Hn.
  assert (Hg : LoginAttempts.checkLoginAttempts now req w
               = (Ok (Respond LoginAttempts.rateLimitedResponse), w)).
  { rewrite (gate_not_locked now req w email He Hne)
      by (by apply isAccountLocked_absent).
    rewrite consume_nofault by done.
    rewrite get_nofault by done. rewrite Hi. simpl.
    destruct (Z.leb_spec (LoginAttempts.maxAttempts * 2) n); [done|lia]. }
  split; [exact Hg|]. split; [done|]. by apply postLogin_respond.
Qed.

Lemma C8_gate_ip_cutoff_witness :
  LoginAttempts.maxAttempts * 2 <= 10
  /\ LoginAttempts.checkLoginAttempts 2000 (Examples.loginReq "correct horse")
       Examples.worldIpTen
     = (Ok (Respond LoginAttempts.rateLimitedResponse), Examples.worldIpTen).
Proof.
  split; [vm_compute; discriminate|].
  refine (proj1 (C8_gate_ip_cutoff 2000 (Examples.loginReq "correct horse")
                   Examples.worldIpTen Examples.alice 10
                   eq_refl _ eq_refl eq_refl eq_refl _)).
  - discriminate.
  - vm_compute; discriminate.
Defined.




(** ** The lockout guard: tracking *)

Section GuardWrites.

Import LoginAttempts.

Lemma incr_live now key ttl w n exp :
  w_faults w = [] ->
  w_cache w !! key = Some (mkEntry (VNum n) exp) -> now < exp ->
  CacheService.incr now key ttl w
  = (Ok (n + 1), set_cache (<[key := mkEntry (VNum (n + 1)) exp]> (w_cache w)) w).
Proof.
  intros Hf Hk Hlt. unfold CacheService.incr. rewrite call_nofault by done.
  rewrite Hk. unfold CacheService.live. simpl.
  destruct (Z.ltb_spec now exp); [done|lia].
Qed.

Lemma incr_fresh now key ttl w :
  w_faults w = [] ->
  CacheService.peek now key (w_cache w) = None ->
  CacheService.incr now key ttl w
  = (Ok 1, set_cache (<[key := mkEntry (VNum 1) (now + ttl * 1000)]> (w_cache w)) w).
Proof.
  intros Hf Hp. unfold CacheService.incr. rewrite call_nofault by done.
  unfold CacheService.peek in Hp.
  destruct (w_cache w !! key) as [e|]; [|done].
  by destruct (CacheService.live now e).
Qed.

Lemma incr_typed now key ttl w :
  w_faults w = [] ->
  (forall e, w_cache w !! key = Some e -> exists n, e_value e = VNum n) ->
  exists k exp,
    CacheService.incr now key ttl w
    = (Ok k, set_cache (<[key := mkEntry (VNum k) exp]> (w_cache w)) w).
Proof.
  intros Hf Ht. unfold CacheService.incr. rewrite call_nofault by done.
  destruct (w_cache w !! key) as [e|] eqn:Hk; [|eauto].
  destruct (Ht e eq_refl) as [n Hn]. rewrite Hn.
  destruct (CacheService.live now e); eauto.
Qed.

(** The notification is best effort: whatever happens to it, the
    cache and the fault schedule are left alone and nothing is thrown. *)
Lemma notify_best_effort email n w :
  exists w',
    try_catch
      (profile <- ProfileModel.findByEmail email ;;
       match profile with
       | Some p => EmailService.sendAccountLockedNotification (n p)
       | None => ret tt
       end)
      (fun emailError => ret tt) w = (Ok tt, w')
    /\ w_cache w' = w_cache w /\ w_faults w' = w_faults w.
Proof.
  unfold try_catch, bind, ProfileModel.findByEmail, bind, Supabase.getUserByEmail,
    throw, ret.
  eauto.
Qed.

Lemma lockAccount_nofault now email k ip w :
  w_faults w = [] ->
  exists w',
    lockAccount now email k ip w = (Ok tt, w')
    /\ w_faults w' = []
    /\ w_cache w'
       = <[lockKey email :=
             mkEntry (VLock (mkLockData email k ip now (now + lockoutDuration * 1000)
                                        (pretty k +:+ " failed login attempts")))
                     (now + lockoutDuration * 1000)]> (w_cache w).
Proof.
  intros Hf. unfold lockAccount.
  unfold try_catch at 1. unfold bind at 1. unfold CacheService.set.
  rewrite call_nofault by done.
  match goal with
  | |- context [try_catch _ _ ?w1] =>
      destruct (notify_best_effort email
                  (fun p => mkNotification email (orUser (p_display_name p))
                              (pretty k +:+ " failed login attempts")
                              (now + lockoutDuration * 1000)) w1)
        as (w' & Hn & Hc & Hf')
  end.
  cbn [ld_reason]. rewrite Hn. exists w'. split; [done|].
  rewrite Hc, Hf'. simpl. done.
Qed.

Lemma typed_insert_num c key k exp :
  ipCountersTyped c -> ipCountersTyped (<[key := mkEntry (VNum k) exp]> c).
Proof.
  intros Ht ip e. rewrite lookup_insert. case_decide.
  - intros [= <-]. by exists k.
  - apply Ht.
Qed.

Lemma typed_insert_lock c email e :
  ipCountersTyped c -> ipCountersTyped (<[lockKey email := e]> c).
Proof.
  intros Ht ip e'. rewrite lookup_insert_ne; [apply Ht|].
  intros H. by apply (ipKey_ne_lockKey ip email).
Qed.

(** One tracked failure, the cache working: the counter of the address
    goes from [k - 1] to [k] (from nothing to 1 when there is no live
    counter), and the lock record is written once [k] reaches
    [maxAttempts]. *)
Lemma track_step now email ip w k exp :
  w_faults w = [] -> ipCountersTyped (w_cache w) ->
  (w_cache w !! attemptsKey email = Some (mkEntry (VNum (k - 1)) exp) /\ now < exp)
  \/ (CacheService.peek now (attemptsKey email) (w_cache w) = None
      /\ k = 1 /\ exp = now + attemptWindow * 1000) ->
  exists w' ipN,
    trackFailedAttempt now email ip w
    = (Ok (mkAttemptStatus k ipN (Z.max 0 (maxAttempts - k)) (maxAttempts <=? k)), w')
    /\ w_faults w' = []
    /\ ipCountersTyped (w_cache w')
    /\ w_cache w' !! attemptsKey email = Some (mkEntry (VNum k) exp)
    /\ (maxAttempts <= k ->
        w_cache w' !! lockKey email
        = Some (mkEntry
                  (VLock (mkLockData email k ip now (now + lockoutDuration * 1000)
                                     (pretty k +:+ " failed login attempts")))
                  (now + lockoutDuration * 1000)))
    /\ (k < maxAttempts -> w_cache w' !! lockKey email = w_cache w !! lockKey email).
Proof.
  intros Hf Ht Hk. unfold trackFailedAttempt, try_catch, bind.
  assert (Hi1 : CacheService.incr now (attemptsKey email) attemptWindow w
                = (Ok k, set_cache (<[attemptsKey email := mkEntry (VNum k) exp]>
                                      (w_cache w)) w)).
  { destruct Hk as [[Hk Hlt] | (Hp & -> & ->)].
    - rewrite (incr_live now _ _ w (k - 1) exp) by done.
      by replace (k - 1 + 1) with k by lia.
    - by apply incr_fresh. }
  rewrite Hi1.
  set (w1 := set_cache (<[attemptsKey email := mkEntry (VNum k) exp]> (w_cache w)) w).
  assert (Hf1 : w_faults w1 = []) by done.
  assert (Ht1 : ipCountersTyped (w_cache w1)) by (by apply typed_insert_num).
  destruct (incr_typed now (ipKey ip) attemptWindow w1 Hf1 (Ht1 ip))
    as (ipN & iexp & Hi2).
  rewrite Hi2.
  set (w2 := set_cache (<[ipKey ip := mkEntry (VNum ipN) iexp]> (w_cache w1)) w1).
  assert (Hf2 : w_faults w2 = []) by done.
  assert (Ha2 : w_cache w2 !! attemptsKey email = Some (mkEntry (VNum k) exp)).
  { subst w2 w1. simpl. rewrite lookup_insert_ne, lookup_insert_eq; [done|].
    intros H. by apply (attemptsKey_ne_ipKey email ip). }
  assert (Hl2 : w_cache w2 !! lockKey email = w_cache w !! lockKey email).
  { subst w2 w1. simpl. rewrite !lookup_insert_ne; [done| |].
    - apply attemptsKey_ne_lockKey.
    - apply ipKey_ne_lockKey. }
  assert (Ht2 : ipCountersTyped (w_cache w2)) by (by apply typed_insert_num).
  destruct (Z.leb_spec maxAttempts k) as [Hge|Hlt].
  - destruct (lockAccount_nofault now email k ip w2 Hf2) as (w3 & Hl & Hf3 & Hc3).
    rewrite Hl. exists w3, ipN. split; [done|]. split; [done|].
    rewrite Hc3. split; [by apply typed_insert_lock|].
    split.
    { rewrite lookup_insert_ne; [done|]. intros H.
      by apply (attemptsKey_ne_lockKey email email). }
    split; [intros _; by rewrite lookup_insert_eq | lia].
  - exists w2, ipN. simpl. repeat split; try done. lia.
Qed.

(** Tracked failures within the window of a live counter add up. *)
Lemma trackSeq_count email events : forall w k exp,
  w_faults w = [] -> ipCountersTyped (w_cache w) ->
  w_cache w !! attemptsKey email = Some (mkEntry (VNum k) exp) ->
  Forall (fun ev => fst ev < exp) events ->
  w_faults (trackSeq email events w) = []
  /\ ipCountersTyped (w_cache (trackSeq email events w))
  /\ w_cache (trackSeq email events w) !! attemptsKey email
     = Some (mkEntry (VNum (k + Z.of_nat (length events))) exp).
Proof.
  induction events as [|[t ip] events IH]; intros w k exp Hf Ht Hk Hall.
  - unfold trackSeq. simpl. by rewrite Z.add_0_r.
  - inversion Hall as [|? ? Hlt Hall']; subst. simpl in Hlt.
    destruct (track_step t email ip w (k + 1) exp Hf Ht) as (w' & ipN & Hs & Hf' & Ht' & Hk' & _).
    { left. by replace (k + 1 - 1) with k by lia. }
    unfold trackSeq. simpl. rewrite Hs. simpl.
    destruct (IH w' (k + 1) exp Hf' Ht' Hk' Hall') as (H1 & H2 & H3).
    unfold trackSeq in *. split; [done|]. split; [done|].
    rewrite H3. do 3 f_equal. lia.
Qed.

End GuardWrites.

Section Lockout.

Import LoginAttempts.

Lemma trackSeq_cons email ev events w :
  trackSeq email (ev :: events) w
  = trackSeq email events (snd (trackFailedAttempt (fst ev) email (snd ev) w)).
Proof. done. Qed.

Lemma trackSeq_snoc email events ev w :
  trackSeq email (events ++ [ev]) w
  = snd (trackFailedAttempt (fst ev) email (snd ev) (trackSeq email events w)).
Proof. unfold trackSeq. by rewrite foldl_snoc. Qed.

Lemma peek_live now key c v exp :
  c !! key = Some (mkEntry v exp) -> now < exp ->
  CacheService.peek now key c = Some v.
Proof.
  intros Hk Hlt. unfold CacheService.peek, CacheService.live. rewrite Hk. simpl.
  destruct (Z.ltb_spec now exp); [done|lia].
Qed.

End Lockout.

(** C2. Five failed attempts on one e-mail address tracked within the
    attempt window lock the account for the lockout duration: the fifth
    writes the lock record, and until it expires the gate answers every
    login request for that address with the 429 lock response, without
    calling the controller, so that no credential check runs. *)
Theorem C2_five_failures_lock_account
    (email : string) (w0 : World) (t1 : Z) (ip1 : string)
    (more : list (Z * string)) (t5 : Z) (ip5 : string) :
  email <> "" ->
  w_faults w0 = [] -> ipCountersTyped (w_cache w0) ->
  CacheService.peek t1 (LoginAttempts.attemptsKey email) (w_cache w0) = None ->
  length more = 3%nat ->
  Forall (fun ev => fst ev < t1 + LoginAttempts.attemptWindow * 1000) more ->
  t5 < t1 + LoginAttempts.attemptWindow * 1000 ->
  let w5 := trackSeq email ((t1, ip1) :: more ++ [(t5, ip5)]) w0 in
  let lockedUntil := t5 + LoginAttempts.lockoutDuration * 1000 in
  w_cache w5 !! LoginAttempts.lockKey email
  = Some (mkEntry (VLock (mkLockData email 5 ip5 t5 lockedUntil
                                     "5 failed login attempts"))
                  lockedUntil)
  /\ forall now req,
      now < lockedUntil -> req_email req = Some email ->
      exists m,
        let r := LoginAttempts.lockedResponse
                   (LoginAttempts.mkLockStatus true (Some "5 failed login attempts")
                      (Some lockedUntil) (Some m)) in
        LoginAttempts.checkLoginAttempts now req w5 = (Ok (Respond r), w5)
        /\ AuthRoutes.postLogin now req w5 = (Ok (Respond r), w5)
        /\ status r = 429
        /\ 1 <= m
        /\ (t5 <= now -> m <= 15).
Proof.
  intros Hne Hf Ht Hp Hlen Hall Ht5 w5 lockedUntil.
  destruct (track_step t1 email ip1 w0 1 (t1 + LoginAttempts.attemptWindow * 1000) Hf Ht)
    as (w1 & ip1N & Hs1 & Hf1 & Ht1 & Hk1 & _); [by right|].
  destruct (trackSeq_count email more w1 1 _ Hf1 Ht1 Hk1 Hall) as (Hf4 & Ht4 & Hk4).
  rewrite Hlen in Hk4.
  set (w4 := trackSeq email more w1) in *.
  destruct (track_step t5 email ip5 w4 5 (t1 + LoginAttempts.attemptWindow * 1000) Hf4 Ht4)
    as (w5' & ip5N & Hs5 & Hf5 & Ht5' & Hk5 & Hl5 & _); [by left|].
  assert (Hw5 : w5 = w5').
  { subst w5. rewrite trackSeq_cons. simpl. rewrite Hs1. simpl.
    rewrite trackSeq_snoc. simpl. fold w4. by rewrite Hs5. }
  rewrite Hw5. clear Hw5 w5.
  specialize (Hl5 ltac:(unfold LoginAttempts.maxAttempts; lia)).
  change (pretty 5 +:+ " failed login attempts") with "5 failed login attempts" in Hl5.
  split; [exact Hl5|].
  intros now req Hnow He.
  set (l := mkLockData email 5 ip5 t5 lockedUntil "5 failed login attempts") in *.
  set (c := LoginAttempts.ceilMinutes (ld_lockedUntil l - now)).
  exists (if 0 <? c then c else 1).
  assert (Hg : LoginAttempts.checkLoginAttempts now req w5'
               = (Ok (Respond (LoginAttempts.lockedResponse
                        (LoginAttempts.mkLockStatus true (Some "5 failed login attempts")
                           (Some lockedUntil) (Some (if 0 <? c then c else 1))))), w5')).
  { rewrite (gate_locked now req w5' email l He Hne).
    - by rewrite consume_nofault.
    - by rewrite Hf5.
    - by apply (peek_live now _ _ _ lockedUntil). }
  split; [exact Hg|]. split; [by apply postLogin_respond|]. split; [done|].
  pose proof (ceilMinutes_spec (ld_lockedUntil l - now)) as Hc. fold c in Hc.
  simpl in Hc. subst lockedUntil. unfold LoginAttempts.lockoutDuration in *.
  destruct (Z.ltb_spec 0 c); split; try lia.
Qed.

Lemma C2_five_failures_witness :
  let w5 := trackSeq Examples.alice
              [(1000, Examples.clientIp); (2000, Examples.clientIp);
               (3000, Examples.clientIp); (4000, Examples.clientIp);
               (5000, Examples.clientIp)] Examples.world0 in
  w_cache w5 !! LoginAttempts.lockKey Examples.alice
  = Some (mkEntry (VLock (mkLockData Examples.alice 5 Examples.clientIp 5000 905000
                                     "5 failed login attempts")) 905000)
  /\ exists r,
      fst (AuthRoutes.postLogin 6000 (Examples.loginReq "correct horse") w5)
      = Ok (Respond r) /\ status r = 429.
Proof.
  intros w5.
  assert (Ht : ipCountersTyped (w_cache Examples.world0)).
  { intros ip e H. simpl in H. rewrite lookup_empty in H. discriminate. }
  destruct (C2_five_failures_lock_account Examples.alice Examples.world0 1000
              Examples.clientIp
              [(2000, Examples.clientIp); (3000, Examples.clientIp);
               (4000, Examples.clientIp)]
              5000 Examples.clientIp
              ltac:(discriminate) eq_refl Ht eq_refl eq_refl
              ltac:(repeat constructor) eq_refl) as [Hl Hg].
  split; [exact Hl|].
  destruct (Hg 6000 (Examples.loginReq "correct horse") eq_refl eq_refl)
    as (m & _ & Hp & Hs & _).
  eexists. split; [|exact Hs].
  unfold w5. simpl app in Hp. by rewrite Hp.
Defined.

(** ** The login controller and the guard *)

Section Controller.

Import LoginAttempts.

(** The controller never calls the tracking hooks the gate attached to
    the request: whatever the outcome, the cache is left as it was. *)
Lemma login_leaves_cache now req w :
  w_cache (snd (AuthController.login now req w)) = w_cache w.
Proof.
  unfold AuthController.login, try_catch, bind, Supabase.signInWithPassword,
    ProfileModel.findById, bind, Supabase.selectProfile, ProfileModel.update, bind,
    Supabase.updateLastSeen, ret, throw.
  destruct (req_email req) as [e|]; [|done].
  destruct (req_password req) as [pw|]; [|done].
  destruct (w_users w !! e) as [u|]; [|done].
  destruct (decide (ur_password u = Some pw)); [|done]. simpl.
  destruct (w_profiles w !! ur_id u) as [r|] eqn:Hr; simpl; [|done].
  destruct (String.eqb (r_account_status r) "suspended"); [done|].
  destruct (String.eqb (r_account_status r) "pending_verification"); [done|].
  simpl. rewrite Hr. done.
Qed.

Lemma postLogin_leaves_cache now req w :
  w_cache (snd (AuthRoutes.postLogin now req w)) = w_cache w.
Proof.
  unfold AuthRoutes.postLogin, bind.
  pose proof (gate_cache now req w) as Hg.
  destruct (checkLoginAttempts now req w) as [[g|e] w1]; simpl in Hg; [|done].
  destruct g as [req'| |]; try done.
  by rewrite login_leaves_cache.
Qed.

(** [clearAttempts] itself does what its name says when the cache
    works: the two counters and the lock record are gone. *)
Lemma clearAttempts_clears email ip w :
  w_faults w = [] ->
  exists w',
    clearAttempts email ip w = (Ok tt, w')
    /\ w_faults w' = []
    /\ w_cache w' = delete (lockKey email) (delete (ipKey ip)
                       (delete (attemptsKey email) (w_cache w))).
Proof.
  intros Hf. unfold clearAttempts, try_catch, bind, CacheService.del.
  rewrite call_nofault by done. rewrite call_nofault by done.
  rewrite call_nofault by done. eauto.
Qed.

Lemma clearAttempts_then_track now email ip w :
  w_faults w = [] -> ipCountersTyped (w_cache w) ->
  attempts
    (match fst (trackFailedAttempt now email ip (snd (clearAttempts email ip w))) with
     | Ok s => s
     | Throw _ => mkAttemptStatus 0 0 0 false
     end) = 1.
Proof.
  intros Hf Ht.
  destruct (clearAttempts_clears email ip w Hf) as (w' & -> & Hf' & Hc). simpl.
  destruct (track_step now email ip w' 1 (now + attemptWindow * 1000) Hf')
    as (w'' & ipN & -> & _).
  - rewrite Hc. intros ip' e H.
    apply (Ht ip' e).
    rewrite !lookup_delete in H. repeat case_decide; try done.
  - right. split; [|done]. rewrite Hc. unfold CacheService.peek.
    rewrite lookup_delete_ne by (intros H; by apply (attemptsKey_ne_lockKey email email)).
    rewrite lookup_delete_ne by (intros H; by apply (attemptsKey_ne_ipKey email ip)).
    by rewrite lookup_delete_eq.
  - done.
Qed.

End Controller.

(** C1. The specification has every rejection of a login recorded by
    the guard.  The controller does not do so: with the gate passed and the
    tracking hooks attached to the request, a wrong password is answered
    401 and an unverified account 403, and both counters are still absent
    from the cache. *)
Theorem C1_login_rejection_not_tracked :
  (exists req',
      LoginAttempts.checkLoginAttempts 1000 (Examples.loginReq "wrong") Examples.world0
      = (Ok (Next req'), Examples.world0)
      /\ req_loginTracking req'
         = Some (mkTracking Examples.alice Examples.clientIp))
  /\ (let out := AuthRoutes.postLogin 1000 (Examples.loginReq "wrong") Examples.world0 in
      fst out = Ok (Respond (mkResponse 401 (FailBody "Invalid email or password")))
      /\ w_cache (snd out) !! LoginAttempts.attemptsKey Examples.alice = None
      /\ w_cache (snd out) !! LoginAttempts.ipKey Examples.clientIp = None)
  /\ (let out := AuthRoutes.postLogin 1000 (Examples.loginReq "correct horse")
                   (Examples.worldStatus "pending_verification") in
      fst out = Ok (Respond (mkResponse 403
                      (FailBody "Please verify your email before logging in.")))
      /\ w_cache (snd out) !! LoginAttempts.attemptsKey Examples.alice = None
      /\ w_cache (snd out) !! LoginAttempts.ipKey Examples.clientIp = None).
Proof.
  split.
  { exists (mkRequest (Some Examples.alice) (Some "wrong") Examples.clientIp
              (Some (mkTracking Examples.alice Examples.clientIp))).
    split; reflexivity. }
  split; vm_compute; repeat split; reflexivity.
Qed.

(** C3. The specification has a successful login clear the failed
    attempts.  The controller does not call [clearAttempts]: after two
    tracked failures a login with the right password succeeds, the counter
    of the address still reads 2, and the next tracked failure counts as
    the third. *)
Theorem C3_successful_login_keeps_counters :
  CacheService.peek 2000 (LoginAttempts.attemptsKey Examples.alice)
    (w_cache Examples.worldTwoFailures) = Some (VNum 2)
  /\ (let out := AuthRoutes.postLogin 2000 (Examples.loginReq "correct horse")
                   Examples.worldTwoFailures in
      (exists user token,
          fst out = Ok (Respond (mkResponse 200 (LoginBody "Login successful" user token))))
      /\ CacheService.peek 3000 (LoginAttempts.attemptsKey Examples.alice)
           (w_cache (snd out)) = Some (VNum 2)
      /\ CacheService.peek 3000 (LoginAttempts.ipKey Examples.clientIp)
           (w_cache (snd out)) = Some (VNum 2)
      /\ exists s w',
          LoginAttempts.trackFailedAttempt 3000 Examples.alice Examples.clientIp (snd out)
          = (Ok s, w')
          /\ LoginAttempts.attempts s = 3).
Proof.
  split; [reflexivity|].
  split; [do 2 eexists; vm_compute; reflexivity|].
  split; [reflexivity|]. split; [reflexivity|].
  do 2 eexists. split; [vm_compute; reflexivity|reflexivity].
Qed.

(** ** Passport strategies *)

Section Passport.

Import PassportConfig.

(** For a Google profile with an e-mail address the callback gets no
    further than the lookup of the identity: the lookup throws, the
    callback ends in that error, and nothing has been read or written. *)
Lemma google_lookup_throws now newId gp w email :
  head (g_emails gp) = Some email ->
  googleVerify now newId gp w
  = (Ok (DoneError (TypeError Supabase.notAFunction)), w).
Proof.
  intros He. unfold googleVerify, try_catch, bind, Supabase.getUserByEmail, throw.
  destruct (g_emails gp) as [|e es]; [discriminate|]. done.
Qed.

Lemma google_no_email now newId gp w :
  g_emails gp = [] ->
  googleVerify now newId gp w
  = (Ok (DoneFalse "No email found in Google profile"), w).
Proof.
  intros He. unfold googleVerify, try_catch, ret. by rewrite He.
Qed.

End Passport.

(** C4. The specification has the reconciliation of a Google sign-in
    idempotent and healing drift.  The callback does neither: its first
    step calls [supabase.auth.admin.getUserByEmail], which the pinned
    client does not have.  With the identity of the address present and
    its profile missing, the callback ends in that TypeError and no
    profile is created, on the first run and on the second; a first
    sign-in of an unknown address ends the same way, with neither identity
    nor profile created. *)
Theorem C4_google_reconciliation_ends_in_error :
  let out1 := PassportConfig.googleVerify 1000 Examples.bobId Examples.googleAlice
                Examples.worldDrift in
  let out2 := PassportConfig.googleVerify 2000 Examples.bobId Examples.googleAlice
                (snd out1) in
  (w_users Examples.worldDrift !! Examples.alice
   = Some (mkUserRow Examples.aliceId (Some "correct horse") true)
   /\ w_profiles Examples.worldDrift !! Examples.aliceId = None)
  /\ fst out1 = Ok (PassportConfig.DoneError (TypeError Supabase.notAFunction))
  /\ w_profiles (snd out1) !! Examples.aliceId = None
  /\ fst out2 = Ok (PassportConfig.DoneError (TypeError Supabase.notAFunction))
  /\ w_profiles (snd out2) !! Examples.aliceId = None
  /\ PassportConfig.googleVerify 1000 Examples.bobId
       (PassportConfig.mkGoogleProfile ["bob@x.com"] "Bob") Examples.world0
     = (Ok (PassportConfig.DoneError (TypeError Supabase.notAFunction)), Examples.world0).
Proof.
  repeat split; reflexivity.
Qed.

(** C10. For a verified token whose payload carries [userId] and
    [email] and whose profile exists, the JWT strategy authenticates the
    request exactly when the profile's [account_status] is not
    ['suspended']; a profile that is still ['pending_verification'] is
    accepted. *)
Theorem C10_jwt_accepts_unless_suspended
    (payload : PassportConfig.JwtPayload) (uid email : string)
    (w : World) (row : ProfileRow) :
  PassportConfig.jp_userId payload = Some uid -> uid <> "" ->
  PassportConfig.jp_email payload = Some email -> email <> "" ->
  w_profiles w !! uid = Some row ->
  ((exists user, fst (PassportConfig.jwtVerify payload w) = Ok (PassportConfig.DoneUser user))
   <-> r_account_status row <> "suspended")
  /\ (r_account_status row <> "suspended" ->
      PassportConfig.jwtVerify payload w
      = (Ok (PassportConfig.DoneUser (profileOf uid row)), w))
  /\ (r_account_status row = "suspended" ->
      PassportConfig.jwtVerify payload w
      = (Ok (PassportConfig.DoneFalse "Account is suspended"), w))
  /\ (r_account_status row = "pending_verification" ->
      PassportConfig.jwtVerify payload w
      = (Ok (PassportConfig.DoneUser (profileOf uid row)), w)).
Proof.
  intros Hu Hune He Hene Hr.
  assert (Hv : PassportConfig.jwtVerify payload w
               = (Ok (if String.eqb (r_account_status row) "suspended"
                      then PassportConfig.DoneFalse "Account is suspended"
                      else PassportConfig.DoneUser (profileOf uid row)), w)).
  { unfold PassportConfig.jwtVerify, try_catch, bind, ProfileModel.findById, bind,
      Supabase.selectProfile, ret.
    rewrite Hu, He, !truthy_some by done. simpl. rewrite Hr. simpl.
    by destruct (String.eqb (r_account_status row) "suspended"). }
  rewrite Hv.
  destruct (String.eqb_spec (r_account_status row) "suspended") as [Hs|Hs].
  - split; [|split; [done|split; [done|]]].
    + simpl. split; [intros [user H]; discriminate | done].
    + intros Hp. rewrite Hp in Hs. discriminate.
  - split; [|split; [done|split; [done|done]]].
    simpl. split; [done | intros _; eauto].
Qed.

Lemma C10_jwt_pending_witness :
  r_account_status (mkProfileRow "Alice" "learner" "pending_verification" None)
  = "pending_verification"
  /\ fst (PassportConfig.jwtVerify Examples.alicePayload
            (Examples.worldStatus "pending_verification"))
     = Ok (PassportConfig.DoneUser
             (mkProfile Examples.aliceId "Alice" "learner" "pending_verification" None)).
Proof.
  split; [reflexivity|].
  destruct (C10_jwt_accepts_unless_suspended Examples.alicePayload Examples.aliceId
              Examples.alice (Examples.worldStatus "pending_verification")
              (mkProfileRow "Alice" "learner" "pending_verification" None)
              eq_refl ltac:(discriminate) eq_refl ltac:(discriminate) eq_refl)
    as (_ & _ & _ & H).
  by rewrite (H eq_refl).
Defined.

(** C7. Forgot-password does not reveal whether an address is
    registered: whatever the credential directory's reset call answers,
    with or without an error, the response is the same generic success
    message with status 200. *)
Theorem C7_forgot_password_non_enumerating
    (reset : option string -> M (option string))
    (req1 req2 : Request) (w1 w2 : World)
    (err1 err2 : option string) (w1' w2' : World) :
  reset (req_email req1) w1 = (Ok err1, w1') ->
  reset (req_email req2) w2 = (Ok err2, w2') ->
  fst (AuthController.forgotPassword reset req1 w1)
  = Ok (Respond (mkResponse 200 (SuccessBody AuthController.genericResetMessage)))
  /\ fst (AuthController.forgotPassword reset req2 w2)
     = fst (AuthController.forgotPassword reset req1 w1).
Proof.
  intros H1 H2. unfold AuthController.forgotPassword, try_catch, bind.
  by rewrite H1, H2.
Qed.

Lemma C7_forgot_password_witness :
  Examples.resetReporting (Some Examples.alice) Examples.world0
  = (Ok None, Examples.world0)
  /\ Examples.resetReporting (Some "nobody@x.com") Examples.world0
     = (Ok (Some "User not found"), Examples.world0)
  /\ fst (AuthController.forgotPassword Examples.resetReporting
            (mkRequest (Some "nobody@x.com") None Examples.clientIp None) Examples.world0)
     = fst (AuthController.forgotPassword Examples.resetReporting
              (mkRequest (Some Examples.alice) None Examples.clientIp None) Examples.world0).
Proof.
  split; [reflexivity|]. split; [reflexivity|].
  exact (proj2 (C7_forgot_password_non_enumerating Examples.resetReporting
                  (mkRequest (Some Examples.alice) None Examples.clientIp None)
                  (mkRequest (Some "nobody@x.com") None Examples.clientIp None)
                  Examples.world0 Examples.world0 None (Some "User not found")
                  Examples.world0 Examples.world0 eq_refl eq_refl)).
Defined.

(** * Further properties of the code *)

(** ** The lockout guard under cache failures *)

Section GuardFailures.

Import LoginAttempts.

Lemma try_catch_ret_ok {A} (m : M A) (a : A) w :
  exists a' w', try_catch m (fun _ => ret a) w = (Ok a', w').
Proof.
  unfold try_catch, ret. destruct (m w) as [[x|e] w']; eauto.
Qed.

End GuardFailures.

(** X1. [trackFailedAttempt] never throws.  When its first cache call
    fails it reports zero attempts, all attempts remaining and no lock, and
    the cache is left as it was. *)
Theorem X1_track_swallows_cache_failure (now : Z) (email ip : string) (w : World) :
  (exists s w', LoginAttempts.trackFailedAttempt now email ip w = (Ok s, w'))
  /\ (head (w_faults w) = Some true ->
      LoginAttempts.trackFailedAttempt now email ip w
      = (Ok (LoginAttempts.mkAttemptStatus 0 0 LoginAttempts.maxAttempts false),
         consume w)
      /\ w_cache (consume w) = w_cache w).
Proof.
  split.
  - unfold LoginAttempts.trackFailedAttempt. apply try_catch_ret_ok.
  - intros Hf. split; [|done].
    unfold LoginAttempts.trackFailedAttempt, try_catch, bind, CacheService.incr.
    by rewrite call_throws.
Qed.

Lemma X1_track_swallows_witness :
  head (w_faults Examples.worldCacheDown) = Some true
  /\ fst (LoginAttempts.trackFailedAttempt 2000 Examples.alice Examples.clientIp
            Examples.worldCacheDown)
     = Ok (LoginAttempts.mkAttemptStatus 0 0 5 false).
Proof.
  split; [reflexivity|].
  destruct (X1_track_swallows_cache_failure 2000 Examples.alice Examples.clientIp
              Examples.worldCacheDown) as [_ H].
  destruct (H eq_refl) as [-> _]. reflexivity.
Defined.

(** X2. When the counter of the address is incremented and the increment
    of the client counter then fails, the failure is counted but reported
    as zero attempts, and no lock record is written even if the count has
    reached [maxAttempts]. *)
Theorem X2_track_partial_failure_skips_lock
    (now : Z) (email ip : string) (w : World) (n exp : Z) (fs : list bool) :
  w_faults w = false :: true :: fs ->
  w_cache w !! LoginAttempts.attemptsKey email = Some (mkEntry (VNum n) exp) ->
  now < exp ->
  let out := LoginAttempts.trackFailedAttempt now email ip w in
  fst out = Ok (LoginAttempts.mkAttemptStatus 0 0 LoginAttempts.maxAttempts false)
  /\ w_cache (snd out)
     = <[LoginAttempts.attemptsKey email := mkEntry (VNum (n + 1)) exp]> (w_cache w)
  /\ w_cache (snd out) !! LoginAttempts.lockKey email
     = w_cache w !! LoginAttempts.lockKey email.
Proof.
  intros Hf Hk Hlt out. subst out.
  unfold LoginAttempts.trackFailedAttempt, try_catch, bind, CacheService.incr,
    CacheService.call.
  rewrite Hf. simpl. rewrite Hk. unfold CacheService.live. simpl.
  destruct (Z.ltb_spec now exp); [|lia]. simpl.
  split; [done|]. split; [done|].
  rewrite lookup_insert_ne; [done|]. apply attemptsKey_ne_lockKey.
Qed.

Lemma X2_track_partial_failure_witness :
  let w := set_faults [false; true]
             (trackSeq Examples.alice
                [(1000, Examples.clientIp); (1000, Examples.clientIp);
                 (1000, Examples.clientIp); (1000, Examples.clientIp)] Examples.world0) in
  let out := LoginAttempts.trackFailedAttempt 2000 Examples.alice Examples.clientIp w in
  fst out = Ok (LoginAttempts.mkAttemptStatus 0 0 5 false)
  /\ w_cache (snd out) !! LoginAttempts.attemptsKey Examples.alice
     = Some (mkEntry (VNum 5) 901000)
  /\ w_cache (snd out) !! LoginAttempts.lockKey Examples.alice = None.
Proof.
  intros w out.
  destruct (X2_track_partial_failure_skips_lock 2000 Examples.alice Examples.clientIp
              w 4 901000 [] eq_refl eq_refl eq_refl) as (H1 & H2 & H3).
  fold out in H1, H2, H3.
  split; [exact H1|]. split.
  - rewrite H2. by rewrite lookup_insert_eq.
  - rewrite H3. reflexivity.
Defined.

(** ** Tracking and reading compose *)

Section TrackThenRead.

Import LoginAttempts.

Lemma isAccountLocked_same_record now email w w' :
  w_faults w = [] -> w_faults w' = [] ->
  w_cache w' !! lockKey email = w_cache w !! lockKey email ->
  fst (isAccountLocked now email w') = fst (isAccountLocked now email w).
Proof.
  intros Hf Hf' Hk.
  unfold isAccountLocked, try_catch, bind, CacheService.get.
  rewrite !call_nofault by done. unfold CacheService.peek. rewrite Hk.
  destruct (w_cache w !! lockKey email) as [e|]; [|done].
  destruct (CacheService.live now e); [|done].
  destruct (e_value e) as [n|l]; [|done]. by destruct (n =? 0).
Qed.

Lemma peek_expired now key c v exp :
  c !! key = Some (mkEntry v exp) -> exp <= now ->
  CacheService.peek now key c = None.
Proof.
  intros Hk Hle. unfold CacheService.peek, CacheService.live. rewrite Hk. simpl.
  destruct (Z.ltb_spec now exp); [lia|done].
Qed.

End TrackThenRead.

(** X3. With the cache working, a tracked failure that brings the
    counter of an address to [k] reports [attempts = k],
    [remainingAttempts = max(0, 5 - k)] and [isLocked] exactly when
    [k >= 5].  When it reports the lock, [isAccountLocked] asked at the
    same instant answers locked, with the reason naming [k] and 15 minutes
    remaining; below the threshold the answer of [isAccountLocked] is what
    it was before. *)
Theorem X3_track_report_matches_lock_state
    (now : Z) (email ip : string) (w : World) (k exp : Z) :
  w_faults w = [] -> ipCountersTyped (w_cache w) ->
  (w_cache w !! LoginAttempts.attemptsKey email = Some (mkEntry (VNum (k - 1)) exp)
   /\ now < exp)
  \/ (CacheService.peek now (LoginAttempts.attemptsKey email) (w_cache w) = None
      /\ k = 1 /\ exp = now + LoginAttempts.attemptWindow * 1000) ->
  exists s w',
    LoginAttempts.trackFailedAttempt now email ip w = (Ok s, w')
    /\ LoginAttempts.attempts s = k
    /\ LoginAttempts.remainingAttempts s = Z.max 0 (5 - k)
    /\ LoginAttempts.as_isLocked s = (5 <=? k)
    /\ (5 <= k ->
        LoginAttempts.isAccountLocked now email w'
        = (Ok (LoginAttempts.mkLockStatus true
                 (Some (pretty k +:+ " failed login attempts"))
                 (Some (now + 900000)) (Some 15)), w'))
    /\ (k < 5 ->
        fst (LoginAttempts.isAccountLocked now email w')
        = fst (LoginAttempts.isAccountLocked now email w)).
Proof.
  intros Hf Ht Hk.
  destruct (track_step now email ip w k exp Hf Ht Hk)
    as (w' & ipN & Hs & Hf' & Ht' & Hk' & Hlock & Hkeep).
  eexists _, w'. split; [exact Hs|]. simpl.
  split; [done|]. split; [done|]. split; [done|]. split.
  - intros Hge. specialize (Hlock Hge).
    rewrite (isAccountLocked_record now email w' _ ltac:(by rewrite Hf')
               (peek_live now _ _ _ _ Hlock ltac:(unfold LoginAttempts.lockoutDuration; lia))).
    rewrite consume_nofault by done. simpl.
    replace (now + LoginAttempts.lockoutDuration * 1000 - now) with 900000
      by (unfold LoginAttempts.lockoutDuration; lia).
    reflexivity.
  - intros Hlt. apply isAccountLocked_same_record; try done. by apply Hkeep.
Qed.

Lemma typed_singleton_attempts email e :
  ipCountersTyped {[ LoginAttempts.attemptsKey email := e ]}.
Proof.
  intros ip e' H. rewrite lookup_singleton_ne in H; [discriminate|].
  apply attemptsKey_ne_ipKey.
Qed.

Lemma X3_track_report_witness :
  exists s w',
    LoginAttempts.trackFailedAttempt 2000 Examples.alice Examples.clientIp
      MoreExamples.worldFourFailures = (Ok s, w')
    /\ LoginAttempts.attempts s = 5
    /\ LoginAttempts.as_isLocked s = true
    /\ fst (LoginAttempts.isAccountLocked 2000 Examples.alice w')
       = Ok (LoginAttempts.mkLockStatus true (Some "5 failed login attempts")
               (Some 902000) (Some 15)).
Proof.
  destruct (X3_track_report_matches_lock_state 2000 Examples.alice Examples.clientIp
              MoreExamples.worldFourFailures 5 901000 eq_refl
              (typed_singleton_attempts _ _))
    as (s & w' & H1 & H2 & _ & H4 & H5 & _).
  { left. split; reflexivity. }
  exists s, w'. split; [exact H1|]. split; [exact H2|]. split; [exact H4|].
  rewrite (H5 ltac:(lia)). reflexivity.
Defined.

(** X4. A lock lasts exactly the lockout duration.  After the tracked
    failure that writes it at instant [now], [isAccountLocked] answers
    locked at every instant before [now + 15 min], with between 1 and 15
    minutes remaining, and not locked from then on, without any call to
    [clearAttempts]. *)
Theorem X4_lock_expires_after_lockout_duration
    (now : Z) (email ip : string) (w : World) (k exp later : Z) :
  w_faults w = [] -> ipCountersTyped (w_cache w) ->
  (w_cache w !! LoginAttempts.attemptsKey email = Some (mkEntry (VNum (k - 1)) exp)
   /\ now < exp)
  \/ (CacheService.peek now (LoginAttempts.attemptsKey email) (w_cache w) = None
      /\ k = 1 /\ exp = now + LoginAttempts.attemptWindow * 1000) ->
  5 <= k ->
  let w' := snd (LoginAttempts.trackFailedAttempt now email ip w) in
  (now <= later < now + 900000 ->
   exists m,
     fst (LoginAttempts.isAccountLocked later email w')
     = Ok (LoginAttempts.mkLockStatus true
             (Some (pretty k +:+ " failed login attempts"))
             (Some (now + 900000)) (Some m))
     /\ 1 <= m <= 15)
  /\ (now + 900000 <= later ->
      fst (LoginAttempts.isAccountLocked later email w') = Ok LoginAttempts.notLocked).
Proof.
  intros Hf Ht Hk Hge w'.
  destruct (track_step now email ip w k exp Hf Ht Hk)
    as (w1 & ipN & Hs & Hf' & Ht' & Hk' & Hlock & _).
  subst w'. rewrite Hs. simpl.
  specialize (Hlock Hge).
  replace (now + LoginAttempts.lockoutDuration * 1000) with (now + 900000) in Hlock
    by (unfold LoginAttempts.lockoutDuration; lia).
  split.
  - intros [Hlo Hhi].
    rewrite (isAccountLocked_record later email w1 _ ltac:(by rewrite Hf')
               (peek_live later _ _ _ _ Hlock Hhi)).
    simpl. eexists. split; [reflexivity|].
    pose proof (ceilMinutes_spec (now + 900000 - later)) as Hc.
    destruct (Z.ltb_spec 0 (LoginAttempts.ceilMinutes (now + 900000 - later))); lia.
  - intros Hle. rewrite isAccountLocked_absent; [done|].
    by apply (peek_expired later _ _ _ _ Hlock).
Qed.

Lemma X4_lock_expires_witness :
  let w' := snd (LoginAttempts.trackFailedAttempt 2000 Examples.alice Examples.clientIp
                   MoreExamples.worldFourFailures) in
  fst (LoginAttempts.isAccountLocked 902000 Examples.alice w')
  = Ok LoginAttempts.notLocked.
Proof.
  intros w'.
  destruct (X4_lock_expires_after_lockout_duration 2000 Examples.alice Examples.clientIp
              MoreExamples.worldFourFailures 5 901000 902000 eq_refl
              (typed_singleton_attempts _ _)
              ltac:(left; split; reflexivity) ltac:(lia)) as [_ H].
  apply H. lia.
Defined.

(** ** The counter of the client address *)

Section IpCounter.

Import LoginAttempts.

Lemma countersTyped_insert_num c key k exp :
  countersTyped c -> countersTyped (<[key := mkEntry (VNum k) exp]> c).
Proof.
  intros [Hi Ha]. split; [by apply typed_insert_num|].
  intros email e. rewrite lookup_insert. case_decide.
  - intros [= <-]. by exists k.
  - apply Ha.
Qed.

Lemma countersTyped_insert_lock c email e :
  countersTyped c -> countersTyped (<[lockKey email := e]> c).
Proof.
  intros [Hi Ha]. split; [by apply typed_insert_lock|].
  intros email' e'. rewrite lookup_insert_ne; [apply Ha|].
  intros H. by apply (attemptsKey_ne_lockKey email' email).
Qed.

Lemma countersTyped_empty : countersTyped ∅.
Proof.
  split; intros x e H; rewrite lookup_empty in H; discriminate.
Qed.

(** One tracked failure, the cache working: whatever address it
    targets, the counter of the client address goes up by one. *)
Lemma track_ip_step now email ip w n exp :
  w_faults w = [] -> countersTyped (w_cache w) ->
  (w_cache w !! ipKey ip = Some (mkEntry (VNum (n - 1)) exp) /\ now < exp)
  \/ (CacheService.peek now (ipKey ip) (w_cache w) = None
      /\ n = 1 /\ exp = now + attemptWindow * 1000) ->
  exists s w',
    trackFailedAttempt now email ip w = (Ok s, w')
    /\ ipAttempts s = n
    /\ w_faults w' = []
    /\ countersTyped (w_cache w')
    /\ w_cache w' !! ipKey ip = Some (mkEntry (VNum n) exp).
Proof.
  intros Hf Ht Hn. unfold trackFailedAttempt, try_catch, bind.
  destruct (incr_typed now (attemptsKey email) attemptWindow w Hf (proj2 Ht email))
    as (k & kexp & Hi1).
  rewrite Hi1.
  set (w1 := set_cache (<[attemptsKey email := mkEntry (VNum k) kexp]> (w_cache w)) w).
  assert (Hf1 : w_faults w1 = []) by done.
  assert (Hip1 : w_cache w1 !! ipKey ip = w_cache w !! ipKey ip).
  { subst w1. simpl. rewrite lookup_insert_ne; [done|]. apply attemptsKey_ne_ipKey. }
  assert (Hi2 : CacheService.incr now (ipKey ip) attemptWindow w1
                = (Ok n, set_cache (<[ipKey ip := mkEntry (VNum n) exp]> (w_cache w1)) w1)).
  { destruct Hn as [[Hk Hlt] | (Hp & -> & ->)].
    - rewrite (incr_live now _ _ w1 (n - 1) exp) by (by rewrite ?Hip1).
      by replace (n - 1 + 1) with n by lia.
    - apply incr_fresh; [done|]. unfold CacheService.peek in *. by rewrite Hip1. }
  rewrite Hi2.
  set (w2 := set_cache (<[ipKey ip := mkEntry (VNum n) exp]> (w_cache w1)) w1).
  assert (Hf2 : w_faults w2 = []) by done.
  assert (Ht2 : countersTyped (w_cache w2)).
  { subst w2 w1. simpl. by do 2 apply countersTyped_insert_num. }
  assert (Hn2 : w_cache w2 !! ipKey ip = Some (mkEntry (VNum n) exp)).
  { subst w2. simpl. by rewrite lookup_insert_eq. }
  destruct (Z.leb_spec maxAttempts k) as [Hge|Hlt].
  - destruct (lockAccount_nofault now email k ip w2 Hf2) as (w3 & Hl & Hf3 & Hc3).
    rewrite Hl. eexists _, w3. split; [done|]. simpl. split; [done|].
    split; [done|]. rewrite Hc3. split; [by apply countersTyped_insert_lock|].
    rewrite lookup_insert_ne; [done|]. intros H. by apply (ipKey_ne_lockKey ip email).
  - eexists _, w2. simpl. repeat split; try done; apply Ht2.
Qed.

Lemma trackEvents_ip_count ip events : forall w n exp,
  w_faults w = [] -> countersTyped (w_cache w) ->
  w_cache w !! ipKey ip = Some (mkEntry (VNum n) exp) ->
  Forall (fun ev => snd ev = ip /\ fst (fst ev) < exp) events ->
  w_faults (trackEvents events w) = []
  /\ countersTyped (w_cache (trackEvents events w))
  /\ w_cache (trackEvents events w) !! ipKey ip
     = Some (mkEntry (VNum (n + Z.of_nat (length events))) exp).
Proof.
  induction events as [|[[t email] ip'] events IH]; intros w n exp Hf Ht Hk Hall.
  - unfold trackEvents. simpl. by rewrite Z.add_0_r.
  - apply Forall_cons in Hall as [[Hip Hlt] Hall']. simpl in Hip, Hlt. subst ip'.
    destruct (track_ip_step t email ip w (n + 1) exp Hf Ht)
      as (s & w' & Hs & _ & Hf' & Ht' & Hk').
    { left. by replace (n + 1 - 1) with n by lia. }
    unfold trackEvents. simpl. rewrite Hs. simpl.
    destruct (IH w' (n + 1) exp Hf' Ht' Hk' Hall') as (H1 & H2 & H3).
    unfold trackEvents in *. split; [done|]. split; [done|].
    rewrite H3. do 3 f_equal. lia.
Qed.

(** The cutoff on the client address, for an address that is not
    locked. *)
Lemma gate_ip_blocked now req w email n :
  req_email req = Some email -> email <> "" ->
  w_faults w = [] ->
  CacheService.peek now (lockKey email) (w_cache w) = None ->
  CacheService.peek now (ipKey (req_ip req)) (w_cache w) = Some (VNum n) ->
  maxAttempts * 2 <= n ->
  checkLoginAttempts now req w = (Ok (Respond rateLimitedResponse), w).
Proof.
  intros He Hne Hf Hl Hi Hn.
  rewrite (gate_not_locked now req w email He Hne)
    by (by apply isAccountLocked_absent).
  rewrite consume_nofault by done.
  rewrite get_nofault by done. rewrite Hi. simpl.
  destruct (Z.leb_spec (maxAttempts * 2) n); [done|lia].
Qed.

End IpCounter.

(** X5. The counter of a client address counts failures whatever
    address they target.  Ten tracked failures from one client within the
    window, spread over any addresses, make the gate answer every further
    request of that client for an address that is not locked with the 429
    rate-limit response, until the window closes. *)
Theorem X5_ip_counter_counts_across_addresses
    (w0 : World) (t1 : Z) (e1 ip : string) (rest : list (Z * string * string))
    (now : Z) (req : Request) (email : string) :
  w_faults w0 = [] -> countersTyped (w_cache w0) ->
  CacheService.peek t1 (LoginAttempts.ipKey ip) (w_cache w0) = None ->
  length rest = 9%nat ->
  Forall (fun ev => snd ev = ip
                    /\ fst (fst ev) < t1 + LoginAttempts.attemptWindow * 1000) rest ->
  let w' := trackEvents ((t1, e1, ip) :: rest) w0 in
  now < t1 + LoginAttempts.attemptWindow * 1000 ->
  req_ip req = ip -> req_email req = Some email -> email <> "" ->
  CacheService.peek now (LoginAttempts.lockKey email) (w_cache w') = None ->
  w_cache w' !! LoginAttempts.ipKey ip
  = Some (mkEntry (VNum 10) (t1 + LoginAttempts.attemptWindow * 1000))
  /\ LoginAttempts.checkLoginAttempts now req w'
     = (Ok (Respond LoginAttempts.rateLimitedResponse), w').
Proof.
  intros Hf Ht Hp Hlen Hall w' Hnow Hip He Hne Hl.
  destruct (track_ip_step t1 e1 ip w0 1 (t1 + LoginAttempts.attemptWindow * 1000) Hf Ht)
    as (s & w1 & Hs & _ & Hf1 & Ht1 & Hk1); [by right|].
  destruct (trackEvents_ip_count ip rest w1 1 _ Hf1 Ht1 Hk1 Hall) as (Hf' & Ht' & Hk').
  rewrite Hlen in Hk'.
  assert (Hw : w' = trackEvents rest w1).
  { subst w'. unfold trackEvents. simpl. by rewrite Hs. }
  rewrite <- Hw in Hf', Ht', Hk'. change (1 + Z.of_nat 9) with 10 in Hk'.
  split; [exact Hk'|].
  apply (gate_ip_blocked now req w' email 10); try done.
  rewrite Hip. by apply (peek_live now _ _ _ _ Hk').
Qed.

Lemma X5_ip_counter_witness :
  let w' := trackEvents
              [(1000, "u0@x.com", Examples.clientIp); (1000, "u1@x.com", Examples.clientIp);
               (1000, "u2@x.com", Examples.clientIp); (1000, "u3@x.com", Examples.clientIp);
               (1000, "u4@x.com", Examples.clientIp); (1000, "u5@x.com", Examples.clientIp);
               (1000, "u6@x.com", Examples.clientIp); (1000, "u7@x.com", Examples.clientIp);
               (1000, "u8@x.com", Examples.clientIp); (1000, "u9@x.com", Examples.clientIp)]
              Examples.world0 in
  fst (LoginAttempts.checkLoginAttempts 2000 (Examples.loginReq "correct horse") w')
  = Ok (Respond LoginAttempts.rateLimitedResponse).
Proof.
  intros w'.
  destruct (X5_ip_counter_counts_across_addresses Examples.world0 1000 "u0@x.com"
              Examples.clientIp
              [(1000, "u1@x.com", Examples.clientIp); (1000, "u2@x.com", Examples.clientIp);
               (1000, "u3@x.com", Examples.clientIp); (1000, "u4@x.com", Examples.clientIp);
               (1000, "u5@x.com", Examples.clientIp); (1000, "u6@x.com", Examples.clientIp);
               (1000, "u7@x.com", Examples.clientIp); (1000, "u8@x.com", Examples.clientIp);
               (1000, "u9@x.com", Examples.clientIp)]
              2000 (Examples.loginReq "correct horse") Examples.alice
              eq_refl countersTyped_empty eq_refl eq_refl
              ltac:(repeat constructor) eq_refl eq_refl eq_refl ltac:(discriminate)
              eq_refl) as [_ H].
  unfold w'. by rewrite H.
Defined.

(** ** Clearing, notifying, reporting *)

(** X6. With the cache working, [clearAttempts] removes the counter of
    the address, the counter of the client and the lock record, leaves
    every other cache entry alone, and is idempotent: a second call changes
    nothing. *)
Theorem X6_clearAttempts_idempotent (email ip : string) (w : World) :
  w_faults w = [] ->
  let w1 := snd (LoginAttempts.clearAttempts email ip w) in
  let w2 := snd (LoginAttempts.clearAttempts email ip w1) in
  w_cache w1 !! LoginAttempts.attemptsKey email = None
  /\ w_cache w1 !! LoginAttempts.ipKey ip = None
  /\ w_cache w1 !! LoginAttempts.lockKey email = None
  /\ (forall key,
        key <> LoginAttempts.attemptsKey email -> key <> LoginAttempts.ipKey ip ->
        key <> LoginAttempts.lockKey email ->
        w_cache w1 !! key = w_cache w !! key)
  /\ w_cache w2 = w_cache w1.
Proof.
  intros Hf w1 w2.
  destruct (clearAttempts_clears email ip w Hf) as (w1' & H1 & Hf1 & Hc1).
  assert (Hw1 : w1 = w1') by (subst w1; by rewrite H1). clearbody w1. subst w1'.
  destruct (clearAttempts_clears email ip w1 Hf1) as (w2' & H2 & _ & Hc2).
  assert (Hw2 : w2 = w2') by (subst w2; by rewrite H2). clearbody w2. subst w2'.
  rewrite Hc2, Hc1.
  split; [rewrite !lookup_delete; by repeat case_decide|].
  split; [rewrite !lookup_delete; by repeat case_decide|].
  split; [rewrite !lookup_delete; by repeat case_decide|].
  split.
  - intros key Ha Hi Hl. rewrite !lookup_delete. by repeat case_decide.
  - apply map_eq. intros key. rewrite !lookup_delete. by repeat case_decide.
Qed.

Lemma X6_clearAttempts_witness :
  let w1 := snd (LoginAttempts.clearAttempts Examples.alice Examples.clientIp
                   Examples.worldLocked) in
  w_cache Examples.worldLocked !! LoginAttempts.lockKey Examples.alice
  = Some (mkEntry (VLock Examples.aliceLock) 901000)
  /\ w_cache w1 !! LoginAttempts.lockKey Examples.alice = None.
Proof.
  intros w1. split; [reflexivity|].
  exact (proj1 (proj2 (proj2 (X6_clearAttempts_idempotent Examples.alice
                                Examples.clientIp Examples.worldLocked eq_refl)))).
Defined.

(** X7. [lockAccount] never throws, and the notification it attempts is
    never sent.  With the cache working it writes the lock record; the
    lookup of the profile by [Profile.findByEmail] then throws (the
    identity lookup it starts with is not a function of the pinned
    client), the inner [catch] swallows that, and the outbox is left as it
    was, also when the address has an identity and a profile and the mail
    service is up.  When the cache write fails there is neither a lock
    record nor a mail. *)
Theorem X7_lock_written_notification_never_sent
    (now : Z) (email : string) (k : Z) (ip : string) (w : World) :
  (w_faults w = [] ->
   LoginAttempts.lockAccount now email k ip w
   = (Ok tt,
      set_cache
        (<[LoginAttempts.lockKey email :=
             mkEntry (VLock (mkLockData email k ip now (now + 900000)
                                        (pretty k +:+ " failed login attempts")))
                     (now + 900000)]> (w_cache w)) w))
  /\ (head (w_faults w) = Some true ->
      LoginAttempts.lockAccount now email k ip w = (Ok tt, consume w))
  /\ w_outbox (snd (LoginAttempts.lockAccount now email k ip w)) = w_outbox w
  /\ ProfileModel.findByEmail email w = (Throw (TypeError Supabase.notAFunction), w).
Proof.
  split; [|split; [|split]].
  - intros Hf.
    unfold LoginAttempts.lockAccount, try_catch, bind, CacheService.set,
      ProfileModel.findByEmail, bind, Supabase.getUserByEmail, throw, ret.
    rewrite call_nofault by done.
    replace (now + LoginAttempts.lockoutDuration * 1000) with (now + 900000)
      by (unfold LoginAttempts.lockoutDuration; lia).
    done.
  - intros Hf. unfold LoginAttempts.lockAccount, try_catch, bind, CacheService.set.
    by rewrite call_throws.
  - unfold LoginAttempts.lockAccount, try_catch, bind, CacheService.set,
      CacheService.call, ProfileModel.findByEmail, bind, Supabase.getUserByEmail,
      throw, ret.
    destruct w as [c f u p m o]. simpl. by destruct f as [|[] f].
  - done.
Qed.

Lemma X7_lock_written_witness :
  w_users Examples.world0 !! Examples.alice
  = Some (mkUserRow Examples.aliceId (Some "correct horse") true)
  /\ w_mail_up Examples.world0 = true
  /\ w_outbox (snd (LoginAttempts.lockAccount 1000 Examples.alice 5 Examples.clientIp
                      Examples.world0)) = []
  /\ w_cache (snd (LoginAttempts.lockAccount 1000 Examples.alice 5 Examples.clientIp
                     Examples.world0)) !! LoginAttempts.lockKey Examples.alice
     = Some (mkEntry (VLock Examples.aliceLock) 901000).
Proof.
  split; [reflexivity|]. split; [reflexivity|].
  destruct (X7_lock_written_notification_never_sent 1000 Examples.alice 5
              Examples.clientIp Examples.world0) as (H1 & _ & H3 & _).
  split; [exact H3|]. rewrite (H1 eq_refl). reflexivity.
Defined.

Section StatusReport.

Import LoginAttempts LoginAttemptsStatus.

Lemma isAccountLocked_nofault now email w :
  w_faults w = [] -> exists st, isAccountLocked now email w = (Ok st, w).
Proof.
  intros Hf.
  pose proof (isAccountLocked_world now email w) as Hw.
  rewrite consume_nofault in Hw by done.
  destruct (try_catch_ret_ok
              (lockData <- CacheService.get now (lockKey email) ;;
               match lockData with
               | Some (VLock l) =>
                   let remainingTime := ceilMinutes (ld_lockedUntil l - now) in
                   ret (mkLockStatus true (Some (ld_reason l)) (Some (ld_lockedUntil l))
                          (Some (if 0 <? remainingTime then remainingTime else 1)))
               | Some (VNum n) =>
                   if n =? 0 then ret notLocked
                   else ret (mkLockStatus true None None (Some 1))
               | None => ret notLocked
               end) notLocked w) as (st & w' & H).
  change (isAccountLocked now email w = (Ok st, w')) in H.
  rewrite H in Hw. simpl in Hw. subst w'. eauto.
Qed.

Lemma getAttemptStatus_nofault now email w :
  w_faults w = [] ->
  exists st,
    isAccountLocked now email w = (Ok st, w)
    /\ getAttemptStatus now email w
       = (Ok (mkAttemptReport
                (ipCount (CacheService.peek now (attemptsKey email) (w_cache w)))
                maxAttempts
                (match ipCount (CacheService.peek now (attemptsKey email) (w_cache w)) with
                 | Some n => Some (Z.max 0 (maxAttempts - n))
                 | None => None
                 end)
                (isLocked st)
                (if isLocked st then Some st else None)), w).
Proof.
  intros Hf. destruct (isAccountLocked_nofault now email w Hf) as [st Hst].
  exists st. split; [done|].
  unfold getAttemptStatus, try_catch, bind.
  rewrite get_nofault by done. by rewrite Hst.
Qed.

End StatusReport.

(** X8. [getAttemptStatus] only reads: it never throws and never changes
    the cache, and when its first read fails it reports zero attempts and
    no lock.  Asked right after a tracked failure, with the cache working,
    it reports the same [attempts] and [remainingAttempts] as
    [trackFailedAttempt] returned, and the lock whenever that reported
    one. *)
Theorem X8_getAttemptStatus_agrees_with_tracking
    (now : Z) (email ip : string) (w : World) (k exp : Z) :
  w_faults w = [] -> ipCountersTyped (w_cache w) ->
  (w_cache w !! LoginAttempts.attemptsKey email = Some (mkEntry (VNum (k - 1)) exp)
   /\ now < exp)
  \/ (CacheService.peek now (LoginAttempts.attemptsKey email) (w_cache w) = None
      /\ k = 1 /\ exp = now + LoginAttempts.attemptWindow * 1000) ->
  (forall w0,
      (exists rp w0', LoginAttemptsStatus.getAttemptStatus now email w0 = (Ok rp, w0'))
      /\ w_cache (snd (LoginAttemptsStatus.getAttemptStatus now email w0)) = w_cache w0
      /\ (head (w_faults w0) = Some true ->
          fst (LoginAttemptsStatus.getAttemptStatus now email w0)
          = Ok (LoginAttemptsStatus.mkAttemptReport (Some 0) 5 (Some 5) false None)))
  /\ exists s w' rp,
      LoginAttempts.trackFailedAttempt now email ip w = (Ok s, w')
      /\ LoginAttemptsStatus.getAttemptStatus now email w' = (Ok rp, w')
      /\ LoginAttemptsStatus.rp_attempts rp = Some (LoginAttempts.attempts s)
      /\ LoginAttemptsStatus.rp_remainingAttempts rp
         = Some (LoginAttempts.remainingAttempts s)
      /\ (LoginAttempts.as_isLocked s = true ->
          LoginAttemptsStatus.rp_isLocked rp = true).
Proof.
  intros Hf Ht Hk. split.
  - intros w0. split; [apply try_catch_ret_ok|]. split.
    + unfold LoginAttemptsStatus.getAttemptStatus, try_catch, bind.
      destruct (get_cases now (LoginAttempts.attemptsKey email) w0) as [-> | ->];
        [done|].
      pose proof (isAccountLocked_world now email (consume w0)) as Hw.
      destruct (LoginAttempts.isAccountLocked now email (consume w0)) as [[st|e] w1];
        simpl in Hw; by subst w1.
    + intros Hd.
      unfold LoginAttemptsStatus.getAttemptStatus, try_catch, bind, CacheService.get.
      by rewrite call_throws.
  - destruct (track_step now email ip w k exp Hf Ht Hk)
      as (w' & ipN & Hs & Hf' & Ht' & Hk' & Hlock & _).
    destruct (getAttemptStatus_nofault now email w' Hf') as (st & Hst & Hg).
    assert (Hlive : now < exp).
    { destruct Hk as [[_ H]|(_ & _ & ->)]; [done|].
      unfold LoginAttempts.attemptWindow. lia. }
    rewrite (peek_live now _ _ _ _ Hk' Hlive) in Hg. simpl in Hg.
    eexists _, w', _. split; [exact Hs|]. split; [exact Hg|]. simpl.
    split; [done|]. split; [done|].
    intros Hl. apply Z.leb_le in Hl. specialize (Hlock Hl).
    rewrite (isAccountLocked_record now email w' _ ltac:(by rewrite Hf')
               (peek_live now _ _ _ _ Hlock
                  ltac:(unfold LoginAttempts.lockoutDuration; lia))) in Hst.
    by injection Hst as <-.
Qed.

Lemma X8_getAttemptStatus_witness :
  exists s w' rp,
    LoginAttempts.trackFailedAttempt 2000 Examples.alice Examples.clientIp
      MoreExamples.worldFourFailures = (Ok s, w')
    /\ LoginAttemptsStatus.getAttemptStatus 2000 Examples.alice w' = (Ok rp, w')
    /\ LoginAttemptsStatus.rp_attempts rp = Some 5
    /\ LoginAttemptsStatus.rp_remainingAttempts rp = Some 0
    /\ LoginAttemptsStatus.rp_isLocked rp = true.
Proof.
  destruct (X8_getAttemptStatus_agrees_with_tracking 2000 Examples.alice
              Examples.clientIp MoreExamples.worldFourFailures 5 901000 eq_refl
              (typed_singleton_attempts _ _) ltac:(left; split; reflexivity))
    as [_ (s & w' & rp & H1 & H2 & H3 & H4 & H5)].
  exists s, w', rp.
  assert (Hs : s = LoginAttempts.mkAttemptStatus 5 1 0 true).
  { assert (H : fst (LoginAttempts.trackFailedAttempt 2000 Examples.alice
                       Examples.clientIp MoreExamples.worldFourFailures) = Ok s)
      by (by rewrite H1).
    vm_compute in H. by injection H as <-. }
  subst s. split; [exact H1|]. split; [exact H2|]. split; [exact H3|].
  split; [exact H4|]. by apply H5.
Defined.

(** ** More on the gate *)

(** X9. For a request with a parsed body the gate never throws and
    never passes an error on, the only response it ever sends has status
    429, and it changes nothing in the cache, the directory, the profiles
    or the outbox, whatever cache calls fail.  For a request without a
    parsed body it throws a TypeError at its first line, before the [try]
    and before any cache call. *)
Theorem X9_gate_outcomes_by_body (now : Z) (inc : Incoming) (w : World) :
  let out := LoginGate.checkLoginAttempts now inc w in
  match inc with
  | Parsed req =>
      exists h, fst out = Ok h
                /\ match h with
                   | Next _ => True
                   | NextError _ => False
                   | Respond r => status r = 429
                   end
  | Unparsed ip =>
      out = (Throw (TypeError LoginGate.noBody), w)
  end
  /\ w_cache (snd out) = w_cache w
  /\ w_users (snd out) = w_users w
  /\ w_profiles (snd out) = w_profiles w
  /\ w_outbox (snd out) = w_outbox w.
Proof.
  destruct inc as [req|ip]; simpl.
  - apply gate_outcomes.
  - done.
Qed.

(** X10. Below the cutoff the gate lets the request through: for an
    address that is not locked and a client counter under
    [2 * maxAttempts], the cache working, it calls [next()] with the
    tracking hooks bound to the address and the client address of the
    request, whose other fields are unchanged. *)
Theorem X10_gate_passes_below_cutoff
    (now : Z) (req : Request) (w : World) (email : string) (n : Z) :
  req_email req = Some email -> email <> "" ->
  w_faults w = [] ->
  CacheService.peek now (LoginAttempts.lockKey email) (w_cache w) = None ->
  LoginAttempts.ipCount
    (CacheService.peek now (LoginAttempts.ipKey (req_ip req)) (w_cache w)) = Some n ->
  n < LoginAttempts.maxAttempts * 2 ->
  LoginAttempts.checkLoginAttempts now req w
  = (Ok (Next (mkRequest (Some email) (req_password req) (req_ip req)
                         (Some (mkTracking email (req_ip req))))), w).
Proof.
  intros He Hne Hf Hl Hi Hn.
  rewrite (gate_not_locked now req w email He Hne)
    by (by apply isAccountLocked_absent).
  rewrite consume_nofault by done.
  rewrite get_nofault by done. rewrite Hi, He. simpl.
  destruct (Z.leb_spec (LoginAttempts.maxAttempts * 2) n); [lia|done].
Qed.

Lemma X10_gate_passes_witness :
  LoginAttempts.checkLoginAttempts 2000 (Examples.loginReq "correct horse")
    MoreExamples.worldFourFailures
  = (Ok (Next (mkRequest (Some Examples.alice) (Some "correct horse") Examples.clientIp
                         (Some (mkTracking Examples.alice Examples.clientIp)))),
     MoreExamples.worldFourFailures).
Proof.
  exact (X10_gate_passes_below_cutoff 2000 (Examples.loginReq "correct horse")
           MoreExamples.worldFourFailures Examples.alice 0
           eq_refl ltac:(discriminate) eq_refl eq_refl eq_refl eq_refl).
Defined.

(** X11. Clearing unlocks at once: after [clearAttempts] for an address
    and a client, the cache working, the gate lets the next request for
    that address from that client through, whatever lock record and
    counters there were before. *)
Theorem X11_clearAttempts_reopens_gate
    (now : Z) (req : Request) (w : World) (email : string) :
  req_email req = Some email -> email <> "" ->
  w_faults w = [] ->
  let w1 := snd (LoginAttempts.clearAttempts email (req_ip req) w) in
  LoginAttempts.checkLoginAttempts now req w1
  = (Ok (Next (mkRequest (Some email) (req_password req) (req_ip req)
                         (Some (mkTracking email (req_ip req))))), w1).
Proof.
  intros He Hne Hf w1.
  destruct (clearAttempts_clears email (req_ip req) w Hf) as (w1' & H1 & Hf1 & Hc1).
  assert (Hw1 : w1 = w1') by (subst w1; by rewrite H1). clearbody w1. subst w1'.
  assert (Hl : w_cache w1 !! LoginAttempts.lockKey email = None).
  { rewrite Hc1, !lookup_delete. by repeat case_decide. }
  assert (Hi : w_cache w1 !! LoginAttempts.ipKey (req_ip req) = None).
  { rewrite Hc1, !lookup_delete. by repeat case_decide. }
  rewrite (gate_not_locked now req w1 email He Hne).
  - rewrite consume_nofault by done. rewrite get_nofault by done.
    unfold CacheService.peek. rewrite Hi, He. done.
  - apply isAccountLocked_absent. unfold CacheService.peek. by rewrite Hl.
Qed.

Lemma X11_clearAttempts_reopens_witness :
  let w1 := snd (LoginAttempts.clearAttempts Examples.alice Examples.clientIp
                   Examples.worldLocked) in
  (exists r, fst (LoginAttempts.checkLoginAttempts 2000 (Examples.loginReq "correct horse")
                    Examples.worldLocked) = Ok (Respond r))
  /\ fst (LoginAttempts.checkLoginAttempts 2000 (Examples.loginReq "correct horse") w1)
     = Ok (Next (mkRequest (Some Examples.alice) (Some "correct horse") Examples.clientIp
                           (Some (mkTracking Examples.alice Examples.clientIp)))).
Proof.
  intros w1. split; [eexists; reflexivity|].
  pose proof (X11_clearAttempts_reopens_gate 2000 (Examples.loginReq "correct horse")
                Examples.worldLocked Examples.alice eq_refl ltac:(discriminate) eq_refl)
    as H.
  change (LoginAttempts.checkLoginAttempts 2000 (Examples.loginReq "correct horse") w1
          = (Ok (Next (mkRequest (Some Examples.alice) (Some "correct horse")
                                 Examples.clientIp
                                 (Some (mkTracking Examples.alice Examples.clientIp)))),
             w1)) in H.
  by rewrite H.
Defined.

(** ** The login controller *)

(** X12. A successful login answers 200 with the profile as it was read
    and a token made of the profile's id, the address that signed in and
    the profile's role; it sets [last_seen_at] of that profile to the
    current instant and changes nothing else. *)
Theorem X12_login_success_effects
    (now : Z) (req : Request) (w : World)
    (email pw : string) (u : UserRow) (r : ProfileRow) :
  req_email req = Some email -> req_password req = Some pw ->
  w_users w !! email = Some u -> ur_password u = Some pw ->
  w_profiles w !! ur_id u = Some r ->
  r_account_status r <> "suspended" ->
  r_account_status r <> "pending_verification" ->
  AuthController.login now req w
  = (Ok (Respond (mkResponse 200
           (LoginBody "Login successful" (profileOf (ur_id u) r)
                      (mkToken (ur_id u) email (r_role r))))),
     set_profiles (<[ur_id u := touch now r]> (w_profiles w)) w).
Proof.
  intros He Hp Hu Hpw Hr Hs Hv.
  unfold AuthController.login, try_catch, bind, Supabase.signInWithPassword,
    ProfileModel.findById, bind, Supabase.selectProfile, ProfileModel.update, bind,
    Supabase.updateLastSeen, ret, throw.
  rewrite He, Hp, Hu. destruct (decide (ur_password u = Some pw)); [|done]. simpl.
  rewrite Hr. simpl.
  destruct (String.eqb_spec (r_account_status r) "suspended"); [done|].
  destruct (String.eqb_spec (r_account_status r) "pending_verification"); [done|].
  simpl. rewrite Hr. done.
Qed.

Lemma X12_login_success_witness :
  AuthController.login 5000 (Examples.loginReq "correct horse") Examples.world0
  = (Ok (Respond (mkResponse 200
           (LoginBody "Login successful"
              (mkProfile Examples.aliceId "Alice" "learner" "active" None)
              (mkToken Examples.aliceId Examples.alice "learner")))),
     set_profiles
       (<[Examples.aliceId := mkProfileRow "Alice" "learner" "active" (Some 5000)]>
          (w_profiles Examples.world0)) Examples.world0).
Proof.
  exact (X12_login_success_effects 5000 (Examples.loginReq "correct horse")
           Examples.world0 Examples.alice "correct horse"
           (mkUserRow Examples.aliceId (Some "correct horse") true)
           (mkProfileRow "Alice" "learner" "active" None)
           eq_refl eq_refl eq_refl eq_refl eq_refl
           ltac:(discriminate) ltac:(discriminate)).
Defined.

(** X13. The login controller answers only 200, 401 or 403, and a login
    it turns away changes nothing: neither the profiles (no
    [last_seen_at] update) nor anything else in the world. *)
Theorem X13_rejected_login_changes_nothing
    (now : Z) (req : Request) (w : World) (r : Response) :
  fst (AuthController.login now req w) = Ok (Respond r) ->
  status r = 200
  \/ ((status r = 401 \/ status r = 403) /\ snd (AuthController.login now req w) = w).
Proof.
  unfold AuthController.login, try_catch, bind, Supabase.signInWithPassword,
    ProfileModel.findById, bind, Supabase.selectProfile, ProfileModel.update, bind,
    Supabase.updateLastSeen, ret, throw.
  destruct (req_email req) as [e|]; [|intros [= <-]; simpl; eauto].
  destruct (req_password req) as [pw|]; [|intros [= <-]; simpl; eauto].
  destruct (w_users w !! e) as [u|]; [|intros [= <-]; simpl; eauto].
  destruct (decide (ur_password u = Some pw)); [|intros [= <-]; simpl; eauto]. simpl.
  destruct (w_profiles w !! ur_id u) as [row|] eqn:Hr; simpl;
    [|intros [= <-]; simpl; eauto].
  destruct (String.eqb (r_account_status row) "suspended");
    [intros [= <-]; simpl; eauto|].
  destruct (String.eqb (r_account_status row) "pending_verification");
    [intros [= <-]; simpl; eauto|].
  simpl. rewrite Hr. simpl. intros [= <-]. by left.
Qed.

Lemma X13_rejected_login_witness :
  snd (AuthController.login 5000 (Examples.loginReq "correct horse")
         (Examples.worldStatus "suspended"))
  = Examples.worldStatus "suspended".
Proof.
  destruct (X13_rejected_login_changes_nothing 5000 (Examples.loginReq "correct horse")
              (Examples.worldStatus "suspended")
              (mkResponse 403 (FailBody "Your account has been suspended."))
              eq_refl) as [H|[_ H]].
  - discriminate H.
  - exact H.
Defined.

(** X14. A failed sign-in is answered alike whatever made it fail: an
    unknown address, a wrong password and a missing password all get the
    same 401 response, and the world is unchanged. *)
Theorem X14_login_failure_is_generic
    (now : Z) (req1 req2 : Request) (w1 w2 : World) (err1 err2 : string) :
  fst (Supabase.signInWithPassword (req_email req1) (req_password req1) w1)
  = Ok (None, Some err1) ->
  fst (Supabase.signInWithPassword (req_email req2) (req_password req2) w2)
  = Ok (None, Some err2) ->
  AuthController.login now req1 w1
  = (Ok (Respond (mkResponse 401 (FailBody "Invalid email or password"))), w1)
  /\ fst (AuthController.login now req2 w2) = fst (AuthController.login now req1 w1).
Proof.
  assert (H : forall req w err,
             fst (Supabase.signInWithPassword (req_email req) (req_password req) w)
             = Ok (None, Some err) ->
             AuthController.login now req w
             = (Ok (Respond (mkResponse 401 (FailBody "Invalid email or password"))), w)).
  { intros req w err.
    unfold AuthController.login, try_catch, bind, Supabase.signInWithPassword, ret.
    destruct (req_email req) as [e|]; [|done].
    destruct (req_password req) as [pw|]; [|done].
    destruct (w_users w !! e) as [u|]; [|done].
    destruct (decide (ur_password u = Some pw)); [|done]. simpl. discriminate. }
  intros H1 H2. rewrite (H req1 w1 err1 H1), (H req2 w2 err2 H2). done.
Qed.

Lemma X14_login_failure_witness :
  fst (AuthController.login 5000
         (mkRequest (Some "nobody@x.com") (Some "guess") Examples.clientIp None)
         Examples.world0)
  = fst (AuthController.login 5000 (Examples.loginReq "wrong") Examples.world0).
Proof.
  exact (proj2 (X14_login_failure_is_generic 5000 (Examples.loginReq "wrong")
                  (mkRequest (Some "nobody@x.com") (Some "guess") Examples.clientIp None)
                  Examples.world0 Examples.world0
                  "Invalid login credentials" "Invalid login credentials"
                  eq_refl eq_refl)).
Defined.

(** ** More on the passport strategies *)

(** X15. The JWT strategy never ends in an error and never changes the
    world.  A payload whose [userId] or [email] is missing or empty is
    turned away as an invalid token payload without looking the profile
    up; a payload whose subject has no profile is turned away as an
    unknown user. *)
Theorem X15_jwt_rejections (payload : PassportConfig.JwtPayload) (w : World) :
  snd (PassportConfig.jwtVerify payload w) = w
  /\ (exists d, fst (PassportConfig.jwtVerify payload w) = Ok d /\ isDoneError d = false)
  /\ (truthy (PassportConfig.jp_userId payload) = false
      \/ truthy (PassportConfig.jp_email payload) = false ->
      fst (PassportConfig.jwtVerify payload w)
      = Ok (PassportConfig.DoneFalse "Invalid token payload"))
  /\ (forall uid,
        PassportConfig.jp_userId payload = Some uid -> uid <> "" ->
        truthy (PassportConfig.jp_email payload) = true ->
        w_profiles w !! uid = None ->
        fst (PassportConfig.jwtVerify payload w)
        = Ok (PassportConfig.DoneFalse "User not found")).
Proof.
  unfold PassportConfig.jwtVerify, try_catch, bind, ProfileModel.findById, bind,
    Supabase.selectProfile, ret.
  destruct (truthy (PassportConfig.jp_userId payload)) eqn:Hu;
    destruct (truthy (PassportConfig.jp_email payload)) eqn:He; simpl.
  - destruct (w_profiles w !! default "" (PassportConfig.jp_userId payload))
      as [r|] eqn:Hr; simpl.
    + destruct (String.eqb (r_account_status r) "suspended"); simpl;
        (split; [done|]; split; [eauto|]; split; [intros [?|?]; discriminate|]);
        intros uid Hid _ _ Hn; rewrite Hid in Hr; simpl in Hr; congruence.
    + split; [done|]. split; [eauto|]. split; [intros [?|?]; discriminate|]. done.
  - split; [done|]. split; [eauto|]. split; [done|]. intros; discriminate.
  - split; [done|]. split; [eauto|]. split; [done|].
    intros uid Hid Hne. rewrite Hid in Hu. by rewrite truthy_some in Hu.
  - split; [done|]. split; [eauto|]. split; [done|]. intros; discriminate.
Qed.

(** X16. The Google verify callback never hands passport a profile and
    never writes.  For a Google profile without an e-mail address it ends
    in [done(null, false)] with the message that no address was found; for
    one with an address it ends in [done(error, false)] with the TypeError
    of the identity lookup; in both cases the directory, the profiles and
    everything else are as before. *)
Theorem X16_google_callback_never_signs_in
    (now : Z) (newId : string) (gp : PassportConfig.GoogleProfile) (w : World) :
  snd (PassportConfig.googleVerify now newId gp w) = w
  /\ (forall p, fst (PassportConfig.googleVerify now newId gp w)
                <> Ok (PassportConfig.DoneUser p))
  /\ (PassportConfig.g_emails gp = [] ->
      fst (PassportConfig.googleVerify now newId gp w)
      = Ok (PassportConfig.DoneFalse "No email found in Google profile"))
  /\ (forall email,
        head (PassportConfig.g_emails gp) = Some email ->
        fst (PassportConfig.googleVerify now newId gp w)
        = Ok (PassportConfig.DoneError (TypeError Supabase.notAFunction))).
Proof.
  destruct (PassportConfig.g_emails gp) as [|e es] eqn:He.
  - rewrite (google_no_email now newId gp w He). simpl.
    split; [done|]. split; [done|]. split; [done|]. intros email H. discriminate.
  - rewrite (google_lookup_throws now newId gp w e) by (by rewrite He). simpl.
    split; [done|]. split; [done|]. split; [discriminate|]. done.
Qed.

(** X17. The session hooks round-trip through the profiles table by the
    id alone.  Whatever profile object was serialized, [deserializeUser]
    answers with the row that id has now, also when its status is
    ['suspended'] (the status is not checked here, unlike in the JWT
    strategy); when the id has no row it answers [done(null, null)], not
    an error; and it changes nothing. *)
Theorem X17_session_round_trip (user : Profile) (w : World) :
  (forall r,
      w_profiles w !! p_id user = Some r ->
      PassportSession.deserializeUser (PassportSession.serializeUser user) w
      = (Ok (inr (Some (profileOf (p_id user) r))), w))
  /\ (forall r,
        w_profiles w !! p_id user = Some r -> user = profileOf (p_id user) r ->
        PassportSession.deserializeUser (PassportSession.serializeUser user) w
        = (Ok (inr (Some user)), w))
  /\ (w_profiles w !! p_id user = None ->
      PassportSession.deserializeUser (PassportSession.serializeUser user) w
      = (Ok (inr None), w)).
Proof.
  unfold PassportSession.deserializeUser, PassportSession.serializeUser, try_catch,
    bind, ProfileModel.findById, bind, Supabase.selectProfile, ret.
  split; [|split].
  - intros r Hr. by rewrite Hr.
  - intros r Hr Hu. rewrite Hr. simpl. by rewrite <- Hu.
  - intros Hn. by rewrite Hn.
Qed.

Lemma X17_session_round_trip_witness :
  PassportSession.deserializeUser
    (PassportSession.serializeUser
       (mkProfile Examples.aliceId "Alice" "learner" "active" None))
    (Examples.worldStatus "suspended")
  = (Ok (inr (Some (mkProfile Examples.aliceId "Alice" "learner" "suspended" None))),
     Examples.worldStatus "suspended").
Proof.
  exact (proj1 (X17_session_round_trip
                  (mkProfile Examples.aliceId "Alice" "learner" "active" None)
                  (Examples.worldStatus "suspended"))
               (mkProfileRow "Alice" "learner" "suspended" None) eq_refl).
Defined.

(** ** The profile model *)

(** X18. [Profile.create] and [Profile.findById] round-trip.  For an id
    that is not yet a key of the table, [create] returns a profile with
    that id, with the given status or, when none (or an empty one) is
    given, ['pending_verification'] whatever the role, and with no
    [last_seen_at]; [findById] then returns that very profile and all other
    rows are as before.  For an id already in the table, [create] throws
    and the table is unchanged. *)
Theorem X18_profile_create_round_trip (pd : ProfileModel.ProfileData) (w : World) :
  (w_profiles w !! ProfileModel.pd_id pd = None ->
   exists p w',
     ProfileModel.create pd w = (Ok p, w')
     /\ p = mkProfile (ProfileModel.pd_id pd) (ProfileModel.pd_display_name pd)
              (ProfileModel.pd_role pd)
              (if truthy (ProfileModel.pd_account_status pd)
               then default "" (ProfileModel.pd_account_status pd)
               else "pending_verification")
              None
     /\ ProfileModel.findById (ProfileModel.pd_id pd) w' = (Ok (Some p), w')
     /\ (forall id, id <> ProfileModel.pd_id pd ->
                    w_profiles w' !! id = w_profiles w !! id))
  /\ (forall r,
        w_profiles w !! ProfileModel.pd_id pd = Some r ->
        ProfileModel.create pd w = (Throw (DbError "23505"), w)).
Proof.
  split.
  - intros Hn.
    unfold ProfileModel.create, bind, Supabase.insertProfile, ret, throw. simpl.
    rewrite Hn. eexists _, _. split; [reflexivity|].
    split.
    { destruct (truthy (ProfileModel.pd_account_status pd));
        destruct (String.eqb (ProfileModel.pd_role pd) "teacher"); done. }
    split.
    { unfold ProfileModel.findById, bind, Supabase.selectProfile, ret. simpl.
      by rewrite lookup_insert_eq. }
    intros id Hid. simpl. by rewrite lookup_insert_ne.
  - intros r Hr.
    unfold ProfileModel.create, bind, Supabase.insertProfile, ret, throw. simpl.
    by rewrite Hr.
Qed.

Lemma X18_profile_create_witness :
  exists w',
    ProfileModel.create (ProfileModel.mkProfileData Examples.bobId "Bob" "teacher" None)
      Examples.world0
    = (Ok (mkProfile Examples.bobId "Bob" "teacher" "pending_verification" None), w')
    /\ ProfileModel.findById Examples.bobId w'
       = (Ok (Some (mkProfile Examples.bobId "Bob" "teacher" "pending_verification" None)),
          w').
Proof.
  destruct (X18_profile_create_round_trip
              (ProfileModel.mkProfileData Examples.bobId "Bob" "teacher" None)
              Examples.world0) as [H _].
  destruct (H eq_refl) as (p & w' & H1 & -> & H3 & _).
  exists w'. split; [exact H1 | exact H3].
Defined.

(** X19. [Profile.update] writes the columns it is given and no other.
    For an id in the table the row becomes the old row with those columns
    replaced, the updated profile is returned, [findById] returns it
    afterwards, and other rows are untouched; the update of [last_seen_at]
    alone is the one the login flows perform.  For an id that is not in the
    table it throws and changes nothing. *)
Theorem X19_profile_update_writes_given_columns
    (id : string) (u : ProfileUpdate.Updates) (w : World) :
  (forall r,
      w_profiles w !! id = Some r ->
      let r' := mkProfileRow
                  (default (r_display_name r) (ProfileUpdate.up_display_name u))
                  (default (r_role r) (ProfileUpdate.up_role u))
                  (default (r_account_status r) (ProfileUpdate.up_account_status u))
                  (match ProfileUpdate.up_last_seen_at u with
                   | Some t => Some t
                   | None => r_last_seen_at r
                   end) in
      exists w',
        ProfileUpdate.update id u w = (Ok (profileOf id r'), w')
        /\ w_profiles w' = <[id := r']> (w_profiles w)
        /\ ProfileModel.findById id w' = (Ok (Some (profileOf id r')), w')
        /\ (forall now,
              ProfileModel.update id now w
              = ProfileUpdate.update id (ProfileUpdate.mkUpdates None None None (Some now)) w))
  /\ (w_profiles w !! id = None ->
      ProfileUpdate.update id u w = (Throw (DbError "PGRST116"), w)).
Proof.
  split.
  - intros r Hr r'.
    unfold ProfileUpdate.update, bind, ProfileUpdate.updateProfile, ret. rewrite Hr.
    eexists. split; [reflexivity|]. simpl. split; [done|]. split.
    + unfold ProfileModel.findById, bind, Supabase.selectProfile, ret. simpl.
      by rewrite lookup_insert_eq.
    + intros now.
      unfold ProfileModel.update, bind, Supabase.updateLastSeen, ret.
      rewrite Hr. done.
  - intros Hn.
    unfold ProfileUpdate.update, bind, ProfileUpdate.updateProfile, throw.
    by rewrite Hn.
Qed.

Lemma X19_profile_update_witness :
  exists w',
    ProfileUpdate.update Examples.aliceId
      (ProfileUpdate.mkUpdates (Some "Alice B.") None None None) Examples.world0
    = (Ok (mkProfile Examples.aliceId "Alice B." "learner" "active" None), w').
Proof.
  destruct (X19_profile_update_writes_given_columns Examples.aliceId
              (ProfileUpdate.mkUpdates (Some "Alice B.") None None None)
              Examples.world0) as [H _].
  destruct (H (mkProfileRow "Alice" "learner" "active" None) eq_refl)
    as (w' & H1 & _).
  exists w'. exact H1.
Defined.

(** ** Suspension and the authentication paths *)

Section Suspension.

Lemma jwt_of_status payload uid email w row :
  PassportConfig.jp_userId payload = Some uid -> uid <> "" ->
  PassportConfig.jp_email payload = Some email -> email <> "" ->
  w_profiles w !! uid = Some row ->
  PassportConfig.jwtVerify payload w
  = (Ok (if String.eqb (r_account_status row) "suspended"
         then PassportConfig.DoneFalse "Account is suspended"
         else PassportConfig.DoneUser (profileOf uid row)), w).
Proof.
  intros Hu Hune He Hene Hr.
  unfold PassportConfig.jwtVerify, try_catch, bind, ProfileModel.findById, bind,
    Supabase.selectProfile, ret.
  rewrite Hu, He, !truthy_some by done. simpl. rewrite Hr. simpl.
  by destruct (String.eqb (r_account_status row) "suspended").
Qed.

Lemma update_status_world id st w r :
  w_profiles w !! id = Some r ->
  ProfileUpdate.update id (ProfileUpdate.mkUpdates None None (Some st) None) w
  = (Ok (mkProfile id (r_display_name r) (r_role r) st (r_last_seen_at r)),
     set_profiles
       (<[id := mkProfileRow (r_display_name r) (r_role r) st (r_last_seen_at r)]>
          (w_profiles w)) w).
Proof.
  intros Hr. unfold ProfileUpdate.update, bind, ProfileUpdate.updateProfile, ret.
  by rewrite Hr.
Qed.

Lemma banAccount_ok req w r :
  w_profiles w !! AdminController.br_userId req = Some r ->
  r_role r <> "admin" ->
  AdminController.banAccount req w
  = (Ok (Json 200 true
           ("Account for user " +:+ AdminController.br_userId req
            +:+ " has been suspended.") None),
     set_profiles
       (<[AdminController.br_userId req :=
            mkProfileRow (r_display_name r) (r_role r) "suspended" (r_last_seen_at r)]>
          (w_profiles w)) w).
Proof.
  intros Hr Hrole.
  unfold AdminController.banAccount, try_catch, bind, ProfileModel.findById, bind,
    Supabase.selectProfile, ProfileUpdate.update, bind, ProfileUpdate.updateProfile, ret.
  rewrite Hr. simpl.
  destruct (String.eqb_spec (r_role r) "admin"); [done|].
  rewrite Hr. done.
Qed.

Lemma unbanAccount_ok req w r :
  w_profiles w !! AdminController.br_userId req = Some r ->
  AdminController.unbanAccount req w
  = (Ok (Json 200 true
           ("Account for user " +:+ AdminController.br_userId req
            +:+ " has been reactivated.") None),
     set_profiles
       (<[AdminController.br_userId req :=
            mkProfileRow (r_display_name r) (r_role r) "active" (r_last_seen_at r)]>
          (w_profiles w)) w).
Proof.
  intros Hr.
  unfold AdminController.unbanAccount, try_catch, bind.
  by rewrite (update_status_world _ "active" w r Hr).
Qed.

End Suspension.

(** X20. [banAccount] refuses what it should: for a user id with no
    profile it answers 404, for a profile whose role is ['admin'] it
    answers 403, and in both cases nothing is changed. *)
Theorem X20_banAccount_guards (req : AdminController.BanRequest) (w : World) :
  (w_profiles w !! AdminController.br_userId req = None ->
   AdminController.banAccount req w = (Ok (Json 404 false "User not found" None), w))
  /\ (forall r,
        w_profiles w !! AdminController.br_userId req = Some r ->
        r_role r = "admin" ->
        AdminController.banAccount req w
        = (Ok (Json 403 false "Cannot ban another admin" None), w)).
Proof.
  split.
  - intros Hn.
    unfold AdminController.banAccount, try_catch, bind, ProfileModel.findById, bind,
      Supabase.selectProfile, ret.
    by rewrite Hn.
  - intros r Hr Hrole.
    unfold AdminController.banAccount, try_catch, bind, ProfileModel.findById, bind,
      Supabase.selectProfile, ret.
    rewrite Hr. simpl. rewrite Hrole. done.
Qed.

(** X21. A ban takes effect on every authentication path at once.
    After [banAccount] succeeds for a user, a token of that user, however
    long it remains valid, is turned away by the JWT strategy as
    suspended, and a login with the right password for an identity of
    that user is answered 403. *)
Theorem X21_ban_revokes_access
    (req : AdminController.BanRequest) (w : World) (r : ProfileRow)
    (payload : PassportConfig.JwtPayload) (tokenEmail : string)
    (now : Z) (lreq : Request) (email pw : string) (u : UserRow) :
  w_profiles w !! AdminController.br_userId req = Some r ->
  r_role r <> "admin" ->
  AdminController.br_userId req <> "" ->
  PassportConfig.jp_userId payload = Some (AdminController.br_userId req) ->
  PassportConfig.jp_email payload = Some tokenEmail -> tokenEmail <> "" ->
  req_email lreq = Some email -> req_password lreq = Some pw ->
  w_users w !! email = Some u -> ur_password u = Some pw ->
  ur_id u = AdminController.br_userId req ->
  let w' := snd (AdminController.banAccount req w) in
  (exists msg, fst (AdminController.banAccount req w) = Ok (Json 200 true msg None))
  /\ PassportConfig.jwtVerify payload w'
     = (Ok (PassportConfig.DoneFalse "Account is suspended"), w')
  /\ AuthController.login now lreq w'
     = (Ok (Respond (mkResponse 403 (FailBody "Your account has been suspended."))), w').
Proof.
  intros Hr Hrole Hid Hpu Hpe Hte He Hp Hu Hpw Huid w'.
  subst w'. rewrite (banAccount_ok req w r Hr Hrole). simpl.
  split; [eauto|]. split.
  - rewrite (jwt_of_status payload _ tokenEmail _
               (mkProfileRow (r_display_name r) (r_role r) "suspended" (r_last_seen_at r))
               Hpu Hid Hpe Hte); [done|].
    simpl. by rewrite lookup_insert_eq.
  - unfold AuthController.login, try_catch, bind, Supabase.signInWithPassword,
      ProfileModel.findById, bind, Supabase.selectProfile, ret.
    rewrite He, Hp. simpl. rewrite Hu.
    destruct (decide (ur_password u = Some pw)); [|done]. simpl.
    rewrite Huid, lookup_insert_eq. done.
Qed.

Lemma X21_ban_revokes_witness :
  let w' := snd (AdminController.banAccount
                   (AdminController.mkBanRequest
                      (mkProfile "admin-1" "Root" "admin" "active" None) Examples.aliceId)
                   Examples.world0) in
  fst (PassportConfig.jwtVerify Examples.alicePayload Examples.world0)
  = Ok (PassportConfig.DoneUser (mkProfile Examples.aliceId "Alice" "learner" "active" None))
  /\ fst (PassportConfig.jwtVerify Examples.alicePayload w')
     = Ok (PassportConfig.DoneFalse "Account is suspended").
Proof.
  intros w'. split; [reflexivity|].
  destruct (X21_ban_revokes_access
              (AdminController.mkBanRequest
                 (mkProfile "admin-1" "Root" "admin" "active" None) Examples.aliceId)
              Examples.world0 (mkProfileRow "Alice" "learner" "active" None)
              Examples.alicePayload Examples.alice 5000
              (Examples.loginReq "correct horse") Examples.alice "correct horse"
              (mkUserRow Examples.aliceId (Some "correct horse") true)
              eq_refl ltac:(discriminate) ltac:(discriminate) eq_refl eq_refl
              ltac:(discriminate) eq_refl eq_refl eq_refl eq_refl eq_refl)
    as (_ & H & _).
  fold w' in H. by rewrite H.
Defined.

(** X22. [unbanAccount] sets the status to ['active'] whatever it was,
    leaving the other columns, so that the JWT strategy accepts the user
    again; a ban followed by an unban therefore leaves the original row
    with status ['active'], also when it was ['pending_verification']
    before.  For a user id with no profile, [unbanAccount] passes the
    error on and changes nothing. *)
Theorem X22_unban_reactivates
    (req : AdminController.BanRequest) (w : World) (r : ProfileRow)
    (payload : PassportConfig.JwtPayload) (tokenEmail : string) :
  w_profiles w !! AdminController.br_userId req = Some r ->
  AdminController.br_userId req <> "" ->
  PassportConfig.jp_userId payload = Some (AdminController.br_userId req) ->
  PassportConfig.jp_email payload = Some tokenEmail -> tokenEmail <> "" ->
  let active := mkProfileRow (r_display_name r) (r_role r) "active" (r_last_seen_at r) in
  let w1 := snd (AdminController.unbanAccount req w) in
  w_profiles w1 = <[AdminController.br_userId req := active]> (w_profiles w)
  /\ PassportConfig.jwtVerify payload w1
     = (Ok (PassportConfig.DoneUser (profileOf (AdminController.br_userId req) active)), w1)
  /\ (r_role r <> "admin" ->
      w_profiles (snd (AdminController.unbanAccount req
                         (snd (AdminController.banAccount req w))))
      = <[AdminController.br_userId req := active]> (w_profiles w))
  /\ (forall w0,
        w_profiles w0 !! AdminController.br_userId req = None ->
        AdminController.unbanAccount req w0 = (Ok (Failed (DbError "PGRST116")), w0)).
Proof.
  intros Hr Hid Hpu Hpe Hte active w1. subst w1.
  rewrite (unbanAccount_ok req w r Hr). simpl.
  split; [done|]. split.
  - rewrite (jwt_of_status payload _ tokenEmail _ active Hpu Hid Hpe Hte); [done|].
    simpl. by rewrite lookup_insert_eq.
  - split.
    + intros Hrole. rewrite (banAccount_ok req w r Hr Hrole). simpl.
      rewrite (unbanAccount_ok req _
                 (mkProfileRow (r_display_name r) (r_role r) "suspended"
                               (r_last_seen_at r)))
        by (simpl; by rewrite lookup_insert_eq).
      simpl. by rewrite insert_insert_eq.
    + intros w0 Hn.
      unfold AdminController.unbanAccount, try_catch, bind, ProfileUpdate.update, bind,
        ProfileUpdate.updateProfile, throw, ret.
      by rewrite Hn.
Qed.

Lemma X22_unban_reactivates_witness :
  let req := AdminController.mkBanRequest
               (mkProfile "admin-1" "Root" "admin" "active" None) Examples.aliceId in
  let w1 := snd (AdminController.unbanAccount req
                   (Examples.worldStatus "pending_verification")) in
  fst (PassportConfig.jwtVerify Examples.alicePayload w1)
  = Ok (PassportConfig.DoneUser (mkProfile Examples.aliceId "Alice" "learner" "active" None)).
Proof.
  intros req w1.
  destruct (X22_unban_reactivates req (Examples.worldStatus "pending_verification")
              (mkProfileRow "Alice" "learner" "pending_verification" None)
              Examples.alicePayload Examples.alice
              eq_refl ltac:(discriminate) eq_refl eq_refl ltac:(discriminate))
    as (_ & H & _).
  fold w1 in H. by rewrite H.
Defined.

(** X23. A user who asks for the deletion of the account is suspended
    at once: [requestAccountDeletion] sets the status of the caller's own
    row to ['suspended'], whatever the role, and from then on the JWT
    strategy turns the caller's token away.  Nothing but that status is
    changed. *)
Theorem X23_deletion_request_suspends_caller
    (req : ProfileController.ProfileRequest) (w : World) (r : ProfileRow)
    (payload : PassportConfig.JwtPayload) (tokenEmail : string) :
  w_profiles w !! p_id (ProfileController.pr_user req) = Some r ->
  p_id (ProfileController.pr_user req) <> "" ->
  PassportConfig.jp_userId payload = Some (p_id (ProfileController.pr_user req)) ->
  PassportConfig.jp_email payload = Some tokenEmail -> tokenEmail <> "" ->
  let w1 := snd (ProfileController.requestAccountDeletion req w) in
  fst (ProfileController.requestAccountDeletion req w)
  = Ok (Json 200 true ProfileController.deletionMessage None)
  /\ w_profiles w1
     = <[p_id (ProfileController.pr_user req) :=
           mkProfileRow (r_display_name r) (r_role r) "suspended" (r_last_seen_at r)]>
         (w_profiles w)
  /\ w_users w1 = w_users w /\ w_cache w1 = w_cache w
  /\ PassportConfig.jwtVerify payload w1
     = (Ok (PassportConfig.DoneFalse "Account is suspended"), w1).
Proof.
  intros Hr Hid Hpu Hpe Hte w1. subst w1.
  unfold ProfileController.requestAccountDeletion, try_catch, bind.
  rewrite (update_status_world _ "suspended" w r Hr). simpl.
  repeat split; try done.
  rewrite (jwt_of_status payload _ tokenEmail _
             (mkProfileRow (r_display_name r) (r_role r) "suspended" (r_last_seen_at r))
             Hpu Hid Hpe Hte); [done|].
  simpl. by rewrite lookup_insert_eq.
Qed.

Lemma X23_deletion_request_witness :
  let req := ProfileController.mkProfileRequest
               (mkProfile Examples.aliceId "Alice" "learner" "active" None) None in
  let w1 := snd (ProfileController.requestAccountDeletion req Examples.world0) in
  fst (PassportConfig.jwtVerify Examples.alicePayload w1)
  = Ok (PassportConfig.DoneFalse "Account is suspended").
Proof.
  intros req w1.
  destruct (X23_deletion_request_suspends_caller req Examples.world0
              (mkProfileRow "Alice" "learner" "active" None)
              Examples.alicePayload Examples.alice
              eq_refl ltac:(discriminate) eq_refl eq_refl ltac:(discriminate))
    as (_ & _ & _ & _ & H).
  fold w1 in H. by rewrite H.
Defined.

(** X24. [updateMyProfile] can only rename the caller: given a display
    name, it writes the row of [req.user.id] and no other, replaces the
    display name, and never touches role, account status or
    [last_seen_at]. *)
Theorem X24_updateMyProfile_only_renames
    (req : ProfileController.ProfileRequest) (w : World) (r : ProfileRow)
    (name : string) :
  ProfileController.pr_display_name req = Some name ->
  w_profiles w !! p_id (ProfileController.pr_user req) = Some r ->
  let id := p_id (ProfileController.pr_user req) in
  let w1 := snd (ProfileController.updateMyProfile req w) in
  fst (ProfileController.updateMyProfile req w)
  = Ok (Json 200 true "Profile updated successfully."
          (Some (mkProfile id name (r_role r) (r_account_status r) (r_last_seen_at r))))
  /\ w_profiles w1 !! id
     = Some (mkProfileRow name (r_role r) (r_account_status r) (r_last_seen_at r))
  /\ (forall other, other <> id -> w_profiles w1 !! other = w_profiles w !! other)
  /\ w_users w1 = w_users w.
Proof.
  intros Hname Hr id w1. subst w1 id.
  unfold ProfileController.updateMyProfile, try_catch, bind, ProfileUpdate.update, bind,
    ProfileUpdate.updateProfile, ret.
  rewrite Hr, Hname. simpl.
  split; [done|]. split; [by rewrite lookup_insert_eq|]. split; [|done].
  intros other Ho. by rewrite lookup_insert_ne.
Qed.

Lemma X24_updateMyProfile_witness :
  fst (ProfileController.updateMyProfile
         (ProfileController.mkProfileRequest
            (mkProfile Examples.aliceId "Alice" "learner" "active" None)
            (Some "Alice B."))
         Examples.world0)
  = Ok (Json 200 true "Profile updated successfully."
          (Some (mkProfile Examples.aliceId "Alice B." "learner" "active" None))).
Proof.
  exact (proj1 (X24_updateMyProfile_only_renames
                  (ProfileController.mkProfileRequest
                     (mkProfile Examples.aliceId "Alice" "learner" "active" None)
                     (Some "Alice B."))
                  Examples.world0 (mkProfileRow "Alice" "learner" "active" None)
                  "Alice B." eq_refl eq_refl)).
Defined.

(** ** Registration *)

Section Registration.

Import Register.

Ltac unfold_register :=
  unfold register, try_catchT, bindT, liftW, retT, throwT,
    ProfileModel.findById, bind, Supabase.selectProfile, ret, throw,
    ProfileExtensions.createTeacherInfo, bindT, ProfileExtensions.insertTeacher, retT.

Lemma register_signup_error signUp req d x err w1 :
  signUp (rg_email req) (rg_password req) (rg_display_name req)
         (default "learner" (rg_role req)) (db_world d) = (Ok (x, Some err), w1) ->
  register signUp req d
  = (Ok (if alreadyRegistered err
         then Respond (mkResponse 409 (FailBody "Email already registered"))
         else NextError (DbError err)),
     mkDb w1 (db_teachers d)).
Proof.
  intros H. unfold_register. rewrite H. simpl.
  by destruct x, (alreadyRegistered err).
Qed.

Lemma register_no_profile signUp req d u w1 :
  signUp (rg_email req) (rg_password req) (rg_display_name req)
         (default "learner" (rg_role req)) (db_world d) = (Ok (Some u, None), w1) ->
  w_profiles w1 !! u_id u = None ->
  register signUp req d
  = (Ok (Respond (mkResponse 500 (FailBody "Failed to initialize user profile."))),
     mkDb w1 (db_teachers d)).
Proof.
  intros H Hn. unfold_register. rewrite H. simpl. by rewrite Hn.
Qed.

Lemma register_ok signUp req d u w1 r :
  signUp (rg_email req) (rg_password req) (rg_display_name req)
         (default "learner" (rg_role req)) (db_world d) = (Ok (Some u, None), w1) ->
  w_profiles w1 !! u_id u = Some r ->
  register signUp req d
  = (Ok (Respond (mkResponse 201
           (LoginBody registeredMessage (profileOf (u_id u) r)
                      (mkToken (u_id u) (u_email u) (r_role r))))),
     mkDb w1
       (if String.eqb (default "learner" (rg_role req)) "teacher"
        then match db_teachers d !! u_id u with
             | Some _ => db_teachers d
             | None =>
                 <[u_id u := mkTeacherInfo (rg_institution req) (rg_credentials_url req)
                                           "pending" None]> (db_teachers d)
             end
        else db_teachers d)).
Proof.
  intros H Hr. unfold_register. rewrite H. simpl. rewrite Hr. simpl.
  destruct (String.eqb (default "learner" (rg_role req)) "teacher"); simpl; [|done].
  by destruct (db_teachers d !! u_id u).
Qed.

End Registration.

(** X25. A registration that does not go through creates no teacher
    record and issues no token.  When the sign-up reports an error whose
    message contains "User already registered" the answer is 409; any
    other reported error is passed to [next]; and when the sign-up succeeds
    but no profile row exists for the new identity, the answer is 500. *)
Theorem X25_register_failures
    (signUp : option string -> option string -> option string -> string ->
              M (option AuthUser * option string))
    (req : Register.RegisterRequest) (d : Db)
    (x : option AuthUser) (err : option string) (w1 : World) :
  signUp (Register.rg_email req) (Register.rg_password req)
         (Register.rg_display_name req) (default "learner" (Register.rg_role req))
         (db_world d) = (Ok (x, err), w1) ->
  let out := Register.register signUp req d in
  (forall msg, err = Some msg -> Register.alreadyRegistered msg = true ->
               out = (Ok (Respond (mkResponse 409 (FailBody "Email already registered"))),
                      mkDb w1 (db_teachers d)))
  /\ (forall msg, err = Some msg -> Register.alreadyRegistered msg = false ->
                  out = (Ok (NextError (DbError msg)), mkDb w1 (db_teachers d)))
  /\ (forall u, err = None -> x = Some u -> w_profiles w1 !! u_id u = None ->
                out = (Ok (Respond (mkResponse 500
                             (FailBody "Failed to initialize user profile."))),
                       mkDb w1 (db_teachers d))).
Proof.
  intros H out. subst out. split; [|split].
  - intros msg -> Ha. rewrite (register_signup_error signUp req d x msg w1 H).
    by rewrite Ha.
  - intros msg -> Ha. rewrite (register_signup_error signUp req d x msg w1 H).
    by rewrite Ha.
  - intros u -> -> Hn. by apply (register_no_profile signUp req d u w1).
Qed.

Lemma X25_register_failures_witness :
  fst (Register.register (signUpWithTrigger Examples.bobId)
         (Register.mkRegisterRequest (Some Examples.alice) (Some "pw") (Some "Al")
            (Some "teacher") None None)
         (mkDb Examples.world0 ∅))
  = Ok (Respond (mkResponse 409 (FailBody "Email already registered"))).
Proof.
  destruct (X25_register_failures (signUpWithTrigger Examples.bobId)
              (Register.mkRegisterRequest (Some Examples.alice) (Some "pw") (Some "Al")
                 (Some "teacher") None None)
              (mkDb Examples.world0 ∅) None (Some "User already registered")
              Examples.world0 eq_refl) as [H _].
  by rewrite (H "User already registered" eq_refl eq_refl).
Defined.

(** X26. A registration that goes through answers 201 with the profile
    found for the new identity and a token made of that profile's id, the
    identity's address and the role of the profile, not the role asked
    for.  Exactly when the role asked for is ['teacher'] a teacher record
    with status ['pending'] is created under the profile's id; a record
    that is already there is left as it is, and the registration still
    succeeds. *)
Theorem X26_register_success
    (signUp : option string -> option string -> option string -> string ->
              M (option AuthUser * option string))
    (req : Register.RegisterRequest) (d : Db)
    (u : AuthUser) (w1 : World) (r : ProfileRow) :
  signUp (Register.rg_email req) (Register.rg_password req)
         (Register.rg_display_name req) (default "learner" (Register.rg_role req))
         (db_world d) = (Ok (Some u, None), w1) ->
  w_profiles w1 !! u_id u = Some r ->
  let out := Register.register signUp req d in
  fst out
  = Ok (Respond (mkResponse 201
          (LoginBody Register.registeredMessage (profileOf (u_id u) r)
                     (mkToken (u_id u) (u_email u) (r_role r)))))
  /\ db_world (snd out) = w1
  /\ (default "learner" (Register.rg_role req) <> "teacher" ->
      db_teachers (snd out) = db_teachers d)
  /\ (default "learner" (Register.rg_role req) = "teacher" ->
      (db_teachers d !! u_id u = None ->
       db_teachers (snd out)
       = <[u_id u := mkTeacherInfo (Register.rg_institution req)
                                   (Register.rg_credentials_url req) "pending" None]>
           (db_teachers d))
      /\ (forall t, db_teachers d !! u_id u = Some t ->
                    db_teachers (snd out) = db_teachers d)).
Proof.
  intros H Hr out. subst out.
  rewrite (register_ok signUp req d u w1 r H Hr). simpl.
  split; [done|]. split; [done|].
  destruct (String.eqb_spec (default "learner" (Register.rg_role req)) "teacher")
    as [Ht|Ht].
  - split; [done|]. intros _. split.
    + intros Hn. by rewrite Hn.
    + intros t Hs. by rewrite Hs.
  - split; [done|]. intros Hc. done.
Qed.

Lemma X26_register_success_witness :
  let out := Register.register (signUpWithTrigger Examples.bobId)
               (Register.mkRegisterRequest (Some "bob@x.com") (Some "pw") (Some "Bob")
                  (Some "teacher") (Some "MIT") None)
               (mkDb Examples.world0 ∅) in
  fst out
  = Ok (Respond (mkResponse 201
          (LoginBody Register.registeredMessage
             (mkProfile Examples.bobId "Bob" "teacher" "pending_verification" None)
             (mkToken Examples.bobId "bob@x.com" "teacher"))))
  /\ db_teachers (snd out) !! Examples.bobId
     = Some (mkTeacherInfo (Some "MIT") None "pending" None).
Proof.
  intros out.
  destruct (X26_register_success (signUpWithTrigger Examples.bobId)
              (Register.mkRegisterRequest (Some "bob@x.com") (Some "pw") (Some "Bob")
                 (Some "teacher") (Some "MIT") None)
              (mkDb Examples.world0 ∅)
              (mkAuthUser Examples.bobId "bob@x.com")
              (snd (signUpWithTrigger Examples.bobId (Some "bob@x.com") (Some "pw")
                      (Some "Bob") "teacher" Examples.world0))
              (mkProfileRow "Bob" "teacher" "pending_verification" None)
              eq_refl eq_refl) as (H1 & _ & _ & H4).
  fold out in H1, H4. split; [exact H1|].
  destruct (H4 eq_refl) as [H5 _]. rewrite (H5 eq_refl). by rewrite lookup_insert_eq.
Defined.

(** ** Reviewing teacher requests *)

(** X27. [reviewTeacherRequest] with both rows present: an approval
    marks the teacher record ['approved'], stores the reason given and
    sets the role of the profile to ['teacher'], leaving its other
    columns; a rejection marks the record ['rejected'] with the reason and
    leaves the profiles untouched.  Both answer 200. *)
Theorem X27_review_teacher_request
    (req : TeacherReview.ReviewRequest) (d : Db) (t : TeacherInfo) (r : ProfileRow) :
  db_teachers d !! TeacherReview.rv_teacherId req = Some t ->
  w_profiles (db_world d) !! TeacherReview.rv_teacherId req = Some r ->
  let id := TeacherReview.rv_teacherId req in
  let out := TeacherReview.reviewTeacherRequest req d in
  (TeacherReview.rv_approved req = true ->
   fst out = Ok (Json 200 true "Teacher request has been approved." None)
   /\ db_teachers (snd out)
      = <[id := mkTeacherInfo (ti_institution t) (ti_credentials_url t) "approved"
                              (TeacherReview.rv_reason req)]> (db_teachers d)
   /\ w_profiles (db_world (snd out))
      = <[id := mkProfileRow (r_display_name r) "teacher" (r_account_status r)
                             (r_last_seen_at r)]> (w_profiles (db_world d)))
  /\ (TeacherReview.rv_approved req = false ->
      fst out = Ok (Json 200 true "Teacher request has been rejected." None)
      /\ db_teachers (snd out)
         = <[id := mkTeacherInfo (ti_institution t) (ti_credentials_url t) "rejected"
                                 (TeacherReview.rv_reason req)]> (db_teachers d)
      /\ db_world (snd out) = db_world d).
Proof.
  intros Ht Hr id out. subst out id.
  unfold TeacherReview.reviewTeacherRequest, try_catchT, bindT, liftW, retT, throwT,
    ProfileExtensions.updateTeacherVerification, bindT, ProfileExtensions.updateTeacher,
    retT, ProfileUpdate.update, bind, ProfileUpdate.updateProfile, ret.
  rewrite Ht. simpl.
  split; intros Ha; rewrite Ha; simpl; [rewrite Hr; simpl|]; done.
Qed.

Lemma X27_review_teacher_witness :
  let d := mkDb Examples.world0
             {[ Examples.aliceId := mkTeacherInfo (Some "MIT") None "pending" None ]} in
  let out := TeacherReview.reviewTeacherRequest
               (TeacherReview.mkReviewRequest Examples.aliceId true None) d in
  w_profiles (db_world (snd out)) !! Examples.aliceId
  = Some (mkProfileRow "Alice" "teacher" "active" None).
Proof.
  intros d out.
  destruct (X27_review_teacher_request
              (TeacherReview.mkReviewRequest Examples.aliceId true None) d
              (mkTeacherInfo (Some "MIT") None "pending" None)
              (mkProfileRow "Alice" "learner" "active" None) eq_refl eq_refl)
    as [H _].
  destruct (H eq_refl) as (_ & _ & H3). fold out in H3. rewrite H3.
  by rewrite lookup_insert_eq.
Defined.

(** X28. An approval is not atomic.  When the teacher record exists but
    the profile row does not, [reviewTeacherRequest] passes the error of
    the profile update on, yet the record has already been marked
    ['approved'].  When the teacher record does not exist, the error is
    passed on and nothing is changed, the role of the profile included. *)
Theorem X28_review_approval_not_atomic
    (req : TeacherReview.ReviewRequest) (d : Db) :
  let id := TeacherReview.rv_teacherId req in
  let out := TeacherReview.reviewTeacherRequest req d in
  (forall t,
      TeacherReview.rv_approved req = true ->
      db_teachers d !! id = Some t ->
      w_profiles (db_world d) !! id = None ->
      fst out = Ok (Failed (DbError "PGRST116"))
      /\ db_teachers (snd out) !! id
         = Some (mkTeacherInfo (ti_institution t) (ti_credentials_url t) "approved"
                               (TeacherReview.rv_reason req))
      /\ db_world (snd out) = db_world d)
  /\ (db_teachers d !! id = None ->
      out = (Ok (Failed (DbError "PGRST116")), d)).
Proof.
  intros id out. subst out id.
  unfold TeacherReview.reviewTeacherRequest, try_catchT, bindT, liftW, retT, throwT,
    ProfileExtensions.updateTeacherVerification, bindT, ProfileExtensions.updateTeacher,
    retT, throwT, ProfileUpdate.update, bind, ProfileUpdate.updateProfile, ret, throw.
  split.
  - intros t Ha Ht Hn. rewrite Ht, Ha. simpl. rewrite Hn. simpl.
    split; [done|]. split; [by rewrite lookup_insert_eq|done].
  - intros Hn. rewrite Hn. simpl. done.
Qed.

Lemma X28_review_not_atomic_witness :
  let d := mkDb Examples.worldDrift
             {[ Examples.aliceId := mkTeacherInfo (Some "MIT") None "pending" None ]} in
  let out := TeacherReview.reviewTeacherRequest
               (TeacherReview.mkReviewRequest Examples.aliceId true None) d in
  fst out = Ok (Failed (DbError "PGRST116"))
  /\ db_teachers (snd out) !! Examples.aliceId
     = Some (mkTeacherInfo (Some "MIT") None "approved" None).
Proof.
  intros d out.
  destruct (X28_review_approval_not_atomic
              (TeacherReview.mkReviewRequest Examples.aliceId true None) d) as [H _].
  destruct (H (mkTeacherInfo (Some "MIT") None "pending" None) eq_refl eq_refl eq_refl)
    as (H1 & H2 & _).
  split; [exact H1 | exact H2].
Defined.

(** ** Instances of the statements above *)

Lemma X15_jwt_rejections_witness :
  fst (PassportConfig.jwtVerify
         (PassportConfig.mkJwtPayload (Some "") (Some Examples.alice) None)
         Examples.world0)
  = Ok (PassportConfig.DoneFalse "Invalid token payload")
  /\ fst (PassportConfig.jwtVerify Examples.alicePayload Examples.worldDrift)
     = Ok (PassportConfig.DoneFalse "User not found").
Proof.
  split.
  - destruct (X15_jwt_rejections
                (PassportConfig.mkJwtPayload (Some "") (Some Examples.alice) None)
                Examples.world0) as (_ & _ & H & _).
    apply H. left. reflexivity.
  - destruct (X15_jwt_rejections Examples.alicePayload Examples.worldDrift)
      as (_ & _ & _ & H).
    apply (H Examples.aliceId); [reflexivity | discriminate | reflexivity | reflexivity].
Defined.

Lemma X16_google_callback_witness :
  fst (PassportConfig.googleVerify 1000 Examples.bobId Examples.googleAlice
         Examples.world0)
  = Ok (PassportConfig.DoneError (TypeError Supabase.notAFunction)).
Proof.
  destruct (X16_google_callback_never_signs_in 1000 Examples.bobId
              Examples.googleAlice Examples.world0) as (_ & _ & _ & H).
  exact (H Examples.alice eq_refl).
Defined.

Lemma X20_banAccount_guards_witness :
  AdminController.banAccount
    (AdminController.mkBanRequest (mkProfile "admin-1" "Root" "admin" "active" None)
       Examples.bobId)
    Examples.world0
  = (Ok (Json 404 false "User not found" None), Examples.world0).
Proof.
  exact (proj1 (X20_banAccount_guards
                  (AdminController.mkBanRequest
                     (mkProfile "admin-1" "Root" "admin" "active" None) Examples.bobId)
                  Examples.world0) eq_refl).
Defined.
